(** * The chat widget's conversation session controller

    A shallow embedding of [src/pages/index.js]: the two identity readers
    [getSessionId] and [getUserId], and the request life cycle of
    [submitMessage] inside [AgentComponent].

    JavaScript strings are sequences of UTF-16 code units; [length],
    [slice], [replace] and [trim] all count and cut code units, so a string
    is modelled as a list of code units.  The two Web Storage areas are
    finite maps from strings to strings. *)

From Stdlib Require Import String Ascii NArith Decimal DecimalPos DecimalN.
From stdpp Require Import gmap list.

Local Open Scope N_scope.
Local Open Scope nat_scope.
Local Set Warnings "-register-all".

(** ** JavaScript strings *)

Module JS.

Definition code_unit := N.
Abbreviation jsstring := (list N).

(** A source literal (ASCII only) as code units. *)
Definition str (s : string) : jsstring :=
  List.map N_of_ascii (list_ascii_of_string s).

Definition hyphen : code_unit := 45%N.

(** [s.replace(/-/g, '')]: every hyphen removed. *)
Fixpoint replace_hyphens (s : jsstring) : jsstring :=
  match s with
  | [] => []
  | c :: s' => if N.eqb c hyphen then replace_hyphens s' else c :: replace_hyphens s'
  end.

(** [s.slice(b, e)] for the non-negative constant bounds the source uses. *)
Definition slice (b e : nat) (s : jsstring) : jsstring :=
  take (e - b) (drop b s).

(** WhiteSpace and LineTerminator code units, the ones [trim] strips. *)
Definition is_white_space (c : code_unit) : bool :=
  (N.leb 9 c && N.leb c 13)          (* TAB, LF, VT, FF, CR *)
  || N.eqb c 32 || N.eqb c 160       (* SP, NBSP *)
  || N.eqb c 5760                    (* U+1680 *)
  || (N.leb 8192 c && N.leb c 8202)  (* U+2000 .. U+200A *)
  || N.eqb c 8232 || N.eqb c 8233    (* LS, PS *)
  || N.eqb c 8239 || N.eqb c 8287    (* U+202F, U+205F *)
  || N.eqb c 12288 || N.eqb c 65279. (* U+3000, U+FEFF *)

Fixpoint trimStart (s : jsstring) : jsstring :=
  match s with
  | [] => []
  | c :: s' => if is_white_space c then trimStart s' else s
  end.

Fixpoint trimEnd (s : jsstring) : jsstring :=
  match s with
  | [] => []
  | c :: s' =>
      match trimEnd s' with
      | [] => if is_white_space c then [] else [c]
      | r => c :: r
      end
  end.

Definition trim (s : jsstring) : jsstring := trimEnd (trimStart s).

(** ToBoolean on a string: only the empty string is falsy. *)
Definition truthy_string (s : jsstring) : bool :=
  match s with [] => false | _ :: _ => true end.

(** A string made of white space only (the empty string included). *)
Definition blank (s : jsstring) : bool := forallb is_white_space s.

(** [`${n}`] for a non-negative integer: its decimal digits. *)
Fixpoint digits (d : Decimal.uint) : jsstring :=
  match d with
  | Nil => []
  | D0 d => 48%N :: digits d
  | D1 d => 49%N :: digits d
  | D2 d => 50%N :: digits d
  | D3 d => 51%N :: digits d
  | D4 d => 52%N :: digits d
  | D5 d => 53%N :: digits d
  | D6 d => 54%N :: digits d
  | D7 d => 55%N :: digits d
  | D8 d => 56%N :: digits d
  | D9 d => 57%N :: digits d
  end.

Definition number_to_string (n : N) : jsstring := digits (N.to_uint n).

End JS.
Import JS.

(** ** Reading a decimal numeral *)

Module Numeral.

Definition is_digit (c : code_unit) : bool := N.leb 48 c && N.leb c 57.

(** The number that a string of decimal digits denotes, most significant
    digit first. *)
Definition decimal_value (ds : jsstring) : N :=
  fold_left (fun acc c => (10 * acc + (c - 48))%N) ds 0%N.

End Numeral.

(** ** Identity Store *)

Module Identity.

Inductive scope := SessionScope | LocalScope.

Inductive storage_op :=
  | OpGetItem (sc : scope) (key : jsstring)
  | OpSetItem (sc : scope) (key value : jsstring).

(** The execution environment of the two readers: whether [window] exists,
    the content of [sessionStorage] and [localStorage], and the storage
    calls made so far (oldest first).  Storage calls are taken to succeed:
    the source handles neither a quota nor a security exception. *)
Record env := {
  has_window : bool;
  sessionStorage : gmap jsstring jsstring;
  localStorage : gmap jsstring jsstring;
  journal : list storage_op
}.

Definition area (sc : scope) (e : env) : gmap jsstring jsstring :=
  match sc with
  | SessionScope => sessionStorage e
  | LocalScope => localStorage e
  end.

(** [storage.getItem(key)]: [None] is JavaScript's [null]. *)
Definition getItem (sc : scope) (key : jsstring) (e : env) : option jsstring * env :=
  (area sc e !! key,
   {| has_window := has_window e;
      sessionStorage := sessionStorage e;
      localStorage := localStorage e;
      journal := journal e ++ [OpGetItem sc key] |}).

Definition setItem (sc : scope) (key value : jsstring) (e : env) : env :=
  {| has_window := has_window e;
     sessionStorage :=
       match sc with SessionScope => <[key := value]> (sessionStorage e) | LocalScope => sessionStorage e end;
     localStorage :=
       match sc with LocalScope => <[key := value]> (localStorage e) | SessionScope => localStorage e end;
     journal := journal e ++ [OpSetItem sc key value] |}.

(** [id && id.length <= 32 ? id : null] *)
Definition keep_if_short (v : option jsstring) : option jsstring :=
  match v with
  | Some s => if truthy_string s && (length s <=? 32) then Some s else None
  | None => None
  end.

(** [uuidv4().replace(/-/g, '').slice(0, 32)], on the value [uuidv4()] returned. *)
Definition fresh_id (uuid : jsstring) : jsstring :=
  slice 0 32 (replace_hyphens uuid).

(** The body shared by the two readers, which differ only in the storage
    area and the key.  [uuid] is what [uuidv4()] returns if it is called. *)
Definition read_id (sc : scope) (key : jsstring) (uuid : jsstring) (e : env)
  : jsstring * env :=
  if negb (has_window e) then ([], e)
  else
    let '(stored, e1) := getItem sc key e in
    let regenerate :=
      let id := fresh_id uuid in (id, setItem sc key id e1) in
    match keep_if_short stored with
    | Some id => if negb (truthy_string id) then regenerate else (id, e1)
    | None => regenerate
    end.

Definition getSessionId (uuid : jsstring) (e : env) : jsstring * env :=
  read_id SessionScope (str "sessionId") uuid e.

Definition getUserId (uuid : jsstring) (e : env) : jsstring * env :=
  read_id LocalScope (str "userId") uuid e.

(** What the [uuid] package's [v4] returns: 36 characters, lower-case
    hexadecimal digits in groups of 8-4-4-4-12 separated by hyphens. *)
Definition is_hex (c : code_unit) : bool :=
  (N.leb 48 c && N.leb c 57) || (N.leb 97 c && N.leb c 102).

Fixpoint uuid_shape (i : nat) (s : jsstring) : bool :=
  match s with
  | [] => true
  | c :: s' =>
      (if existsb (Nat.eqb i) [8; 13; 18; 23] then N.eqb c hyphen else is_hex c)
      && uuid_shape (S i) s'
  end.

Definition is_uuid (s : jsstring) : bool :=
  (length s =? 36) && uuid_shape 0 s.

(** The stored values for which a reader generates: none, the empty string,
    and any string longer than 32. *)
Definition must_generate (stored : option jsstring) : bool :=
  match stored with
  | None => true
  | Some s => match s with [] => true | _ :: _ => 32 <? length s end
  end.

End Identity.

(** ** Request Controller *)

Module Controller.

(** *** Values *)

(** A JavaScript number is an IEEE 754 double; only its class matters here. *)
Inductive number :=
  | Zero (negative : bool)
  | NaN
  | Infinity (negative : bool)
  | Finite (negative : bool) (mantissa : positive) (exponent : Z).

(** The values [res.json()] can produce, and [undefined]. *)
Inductive value :=
  | VUndefined
  | VNull
  | VBool (b : bool)
  | VNumber (n : number)
  | VString (s : jsstring)
  | VArray (items : list value)
  | VObject (fields : list (jsstring * value)).

(** ToBoolean *)
Definition truthy (v : value) : bool :=
  match v with
  | VUndefined | VNull => false
  | VBool b => b
  | VNumber (Zero _) | VNumber NaN => false
  | VNumber _ => true
  | VString s => truthy_string s
  | VArray _ | VObject _ => true
  end.

(** How a computation, or a promise, ends: with a value or with a thrown
    error, of which the handler only reads [message]. *)
Inductive completion (A : Type) :=
  | Normal (a : A)
  | Throw (message : jsstring).
Arguments Normal {A} a.
Arguments Throw {A} message.

Fixpoint own_property (key : jsstring) (fields : list (jsstring * value)) : value :=
  match fields with
  | [] => VUndefined
  | (k, v) :: rest => if bool_decide (k = key) then v else own_property key rest
  end.

Section Engine.

(** The text of the engine's TypeError for reading a property of [null]. *)
Variable null_read_message : jsstring.

(** [v.key] for the two names the controller reads, [output_data] and
    [content]: no built-in prototype defines them, so every primitive and
    every array answers [undefined]; [null] and [undefined] throw. *)
Definition get (v : value) (key : jsstring) : completion value :=
  match v with
  | VUndefined | VNull => Throw null_read_message
  | VObject fields => Normal (own_property key fields)
  | VBool _ | VNumber _ | VString _ | VArray _ => Normal VUndefined
  end.

(** The same read where it cannot throw; on [null] and [undefined] it is
    given the value [undefined]. *)
Definition member (key : jsstring) (v : value) : value :=
  match v with
  | VObject fields => own_property key fields
  | _ => VUndefined
  end.

(** *** Messages and component state

    A setter is modelled as taking effect when it is called.  React queues
    the updates of one segment and applies them in call order at the next
    render; the cells read by [submitMessage], [userId] and [sessionId],
    are written by the mount effect only. *)

Inductive Role := user | agent.

Definition role_name (r : Role) : jsstring :=
  match r with user => str "user" | agent => str "agent" end.

Record Message := { role : Role; content : value }.

(** The object literal [{ role, content }] as a value. *)
Definition message_object (m : Message) : value :=
  VObject [(str "role", VString (role_name (role m))); (str "content", content m)].

(** The [useState] cells of [AgentComponent] the controller reads or writes.
    [None] in [error] is [null]. *)
Record state := {
  message : jsstring;
  conversation : list Message;
  error : option jsstring;
  isLoading : bool;
  sessionId : jsstring;
  userId : jsstring
}.

Definition setMessage (m : jsstring) (st : state) : state :=
  {| message := m; conversation := conversation st; error := error st;
     isLoading := isLoading st; sessionId := sessionId st; userId := userId st |}.

(** The functional form [setConversation((prev) => ...)]. *)
Definition setConversation (f : list Message -> list Message) (st : state) : state :=
  {| message := message st; conversation := f (conversation st); error := error st;
     isLoading := isLoading st; sessionId := sessionId st; userId := userId st |}.

Definition setError (e : option jsstring) (st : state) : state :=
  {| message := message st; conversation := conversation st; error := e;
     isLoading := isLoading st; sessionId := sessionId st; userId := userId st |}.

Definition setIsLoading (b : bool) (st : state) : state :=
  {| message := message st; conversation := conversation st; error := error st;
     isLoading := b; sessionId := sessionId st; userId := userId st |}.

Definition setSessionId (s : jsstring) (st : state) : state :=
  {| message := message st; conversation := conversation st; error := error st;
     isLoading := isLoading st; sessionId := s; userId := userId st |}.

Definition setUserId (s : jsstring) (st : state) : state :=
  {| message := message st; conversation := conversation st; error := error st;
     isLoading := isLoading st; sessionId := sessionId st; userId := s |}.

(** The [useState] initial values. *)
Definition initial : state :=
  {| message := []; conversation := []; error := None; isLoading := false;
     sessionId := []; userId := [] |}.

(** The mount effect: [setSessionId(getSessionId()); setUserId(getUserId())]. *)
Definition mount (uuid1 uuid2 : jsstring) (e : Identity.env) : state * Identity.env :=
  let '(sid, e1) := Identity.getSessionId uuid1 e in
  let '(uid, e2) := Identity.getUserId uuid2 e1 in
  (setUserId uid (setSessionId sid initial), e2).

(** *** The network *)

(** The call [fetch(url, { method, headers, body: JSON.stringify(payload) })];
    [payload] is the value handed to [JSON.stringify]. *)
Record request := {
  url : jsstring;
  method : jsstring;
  headers : list (jsstring * jsstring);
  payload : value
}.

(** A response: its status, and what the promise [res.json()] settles to. *)
Record response := {
  status : N;
  json : completion value
}.

(** [res.ok]: the status is in the range 200-299. *)
Definition ok (res : response) : bool :=
  N.leb 200 (status res) && N.leb (status res) 299.

(** What one segment of the program does besides updating the state cells,
    in program order. *)
Inductive effect :=
  | Append (m : Message)       (* setConversation((prev) => [...prev, m]) *)
  | Fetch (r : request)
  | ConsoleError (m : jsstring).

(** Where [submitMessage] is suspended. *)
Inductive await :=
  | AwaitFetch
  | AwaitJson (p : completion value).

(** *** submitMessage *)

Definition fallback : jsstring := str "No valid response received from agent.".

Definition build_payload (userMessage : Message) (st : state) : value :=
  VObject
    [(str "data", VObject [(str "message", message_object userMessage)]);
     (str "stateful", VBool true);
     (str "stream", VBool false);
     (str "user_id", VString (userId st));
     (str "session_id", VString (sessionId st));
     (str "verbose", VBool false)].

Definition build_request (userMessage : Message) (st : state) : request :=
  {| url := str "/api/proxy";
     method := str "POST";
     headers := [(str "Content-Type", str "application/json")];
     payload := build_payload userMessage st |}.

(** The [catch] block followed by the [finally] block. *)
Definition catch_finally (m : jsstring) (st : state) : state * list effect * option await :=
  (setIsLoading false (setError (Some m) st), [ConsoleError m], None).

(** From the call to the first [await]. *)
Definition submitMessage_enter (userInput : jsstring) (st : state)
  : state * list effect * option await :=
  if negb (truthy_string (trim userInput)) then (st, [], None)
  else
    let st1 := setError None (setMessage ([]) st) in
    let userMessage := {| role := user; content := VString (trim userInput) |} in
    let st2 := setConversation (fun prev => prev ++ [userMessage]) st1 in
    let req := build_request userMessage st in
    let st3 := setIsLoading true st2 in
    (st3, [Append userMessage; Fetch req], Some AwaitFetch).

(** From the settled [fetch] to [await res.json()]. *)
Definition submitMessage_after_fetch (settled : completion response) (st : state)
  : state * list effect * option await :=
  match settled with
  | Throw m => catch_finally m st
  | Normal res =>
      if negb (ok res)
      then catch_finally (str "Server error: " ++ number_to_string (status res)) st
      else (st, [], Some (AwaitJson (json res)))
  end.

(** [data.output_data && data.output_data.content
      ? data.output_data.content : "No valid response received from agent."] *)
Definition agentReply (data : value) : completion value :=
  match get data (str "output_data") with
  | Throw m => Throw m
  | Normal output_data =>
      if truthy output_data then
        match get output_data (str "content") with
        | Throw m => Throw m
        | Normal c =>
            if truthy c then get output_data (str "content")
            else Normal (VString fallback)
        end
      else Normal (VString fallback)
  end.

(** From the settled [res.json()] to the end. *)
Definition submitMessage_after_json (settled : completion value) (st : state)
  : state * list effect * option await :=
  match settled with
  | Throw m => catch_finally m st
  | Normal data =>
      match agentReply data with
      | Throw m => catch_finally m st
      | Normal reply =>
          let agentMessage := {| role := agent; content := reply |} in
          let st1 := setConversation (fun prev => prev ++ [agentMessage]) st in
          let st2 := setMessage ([]) st1 in
          (setIsLoading false st2, [Append agentMessage], None)
      end
  end.

(** One invocation run to its end with nothing else in between; [net] is
    what its [fetch] settles to. *)
Definition submitMessage (userInput : jsstring) (net : completion response) (st : state)
  : state * list effect :=
  match submitMessage_enter userInput st with
  | (st1, fx1, None) => (st1, fx1)
  | (st1, fx1, Some _) =>
      match submitMessage_after_fetch net st1 with
      | (st2, fx2, Some (AwaitJson p)) =>
          let '(st3, fx3, _) := submitMessage_after_json p st2 in
          (st3, fx1 ++ fx2 ++ fx3)
      | (st2, fx2, _) => (st2, fx1 ++ fx2)
      end
  end.

(** The user message and the request that [submitMessage(userInput)]
    builds when the state cells hold [st], written out. *)
Definition user_message (userInput : jsstring) : Message :=
  {| role := user; content := VString (trim userInput) |}.

Definition is_fetch (e : effect) : bool :=
  match e with Fetch _ => true | _ => false end.

Definition is_append (r : Role) (e : effect) : bool :=
  match e with
  | Append {| role := user |} => match r with user => true | agent => false end
  | Append {| role := agent |} => match r with agent => true | user => false end
  | _ => false
  end.

(** A transport failure, or a response whose status is not 2xx. *)
Definition failed (net : completion response) : bool :=
  match net with
  | Throw _ => true
  | Normal res => negb (ok res)
  end.

(** *** Invocations interleaved by the event loop *)

(** What the event loop delivers to the component. *)
Inductive input :=
  | Submit (userInput : jsstring)
  | FetchSettles (id : nat) (r : completion response)
  | JsonSettles (id : nat).

Inductive event :=
  | Did (id : nat) (e : effect)
  | Resolved (id : nat).

(** The component over time: its state cells, the suspended invocations of
    [submitMessage] (numbered in call order), and what has happened. *)
Record world := {
  ui : state;
  suspended : gmap nat await;
  next : nat;
  trace : list event
}.

Definition start : state -> world := fun st =>
  {| ui := st; suspended := ∅; next := 0; trace := [] |}.

(** A call of [submitMessage]: a blank input returns at once and leaves no
    mark; otherwise the invocation takes the next number and is suspended
    at its [fetch]. *)
Definition call (userInput : jsstring) (w : world) : world :=
  match submitMessage_enter userInput (ui w) with
  | (st, fx, Some k) =>
      {| ui := st;
         suspended := <[next w := k]> (suspended w);
         next := S (next w);
         trace := trace w ++ List.map (Did (next w)) fx |}
  | (_, _, None) => w
  end.

(** Invocation [id] has been resumed and has run to its next [await], or
    to its end. *)
Definition resumed (id : nat) (w : world) (r : state * list effect * option await) : world :=
  match r with
  | (st, fx, Some k) =>
      {| ui := st;
         suspended := <[id := k]> (suspended w);
         next := next w;
         trace := trace w ++ List.map (Did id) fx |}
  | (st, fx, None) =>
      {| ui := st;
         suspended := delete id (suspended w);
         next := next w;
         trace := trace w ++ List.map (Did id) fx ++ [Resolved id] |}
  end.

(** A settlement for an invocation that is not waiting for it is dropped. *)
Definition step (w : world) (i : input) : world :=
  match i with
  | Submit userInput => call userInput w
  | FetchSettles id r =>
      match suspended w !! id with
      | Some AwaitFetch => resumed id w (submitMessage_after_fetch r (ui w))
      | _ => w
      end
  | JsonSettles id =>
      match suspended w !! id with
      | Some (AwaitJson p) => resumed id w (submitMessage_after_json p (ui w))
      | _ => w
      end
  end.

Definition run (w : world) (inputs : list input) : world :=
  fold_left step inputs w.

(** A discipline on the callers, which nothing in the source enforces: the
    call of [submitMessage] is made at a moment when [isLoading] is false.
    The submit controls carry [disabled={isLoading}], but that is tested
    when the control is used, and [handlePromptClick] makes the call later,
    from a timer (see [Page]). *)
Definition idle_at_call (w : world) (i : input) : bool :=
  match i with
  | Submit _ => negb (isLoading (ui w))
  | _ => true
  end.

(** Every call of the run is made while [isLoading] is false. *)
Fixpoint guarded (w : world) (inputs : list input) : bool :=
  match inputs with
  | [] => true
  | i :: rest => idle_at_call w i && guarded (step w i) rest
  end.

(** Reading a trace for overlap.  The reader remembers which invocation is
    in flight, if any; [None] means that two invocations have overlapped. *)
Definition observe (seen : option (option nat)) (ev : event) : option (option nat) :=
  match seen with
  | None => None
  | Some None =>
      match ev with
      | Did id _ => Some (Some id)
      | Resolved _ => None
      end
  | Some (Some o) =>
      match ev with
      | Did id _ => if o =? id then seen else None
      | Resolved id => if o =? id then Some None else None
      end
  end.

(** No effect of an invocation falls between the first effect and the
    resolution of another one. *)
Definition serial (t : list event) : bool :=
  match fold_left observe t (Some None) with
  | Some _ => true
  | None => false
  end.

End Engine.

(** The two invariants of a run.  The first holds of every run, the second
    of the runs in which every call is made while [isLoading] is false. *)
Definition loading_in_flight (w : world) : Prop :=
  isLoading (ui w) = true -> suspended w <> ∅.

Definition one_at_a_time (w : world) : Prop :=
  (isLoading (ui w) = false -> suspended w = ∅)
  /\ match fold_left observe (trace w) (Some None) with
     | Some None => suspended w = ∅
     | Some (Some id) => exists k, suspended w = {[id := k]}
     | None => False
     end.

End Controller.

(** ** Sample inputs *)

Module Sample.
Import Identity Controller.

Definition uuidA : jsstring := str "123e4567-e89b-42d3-a456-426614174000".
Definition uuidB : jsstring := str "9b2c1d3e-4f5a-4b6c-8d7e-0f1a2b3c4d5e".

(** A browser tab with nothing stored yet. *)
Definition browser : env :=
  {| has_window := true; sessionStorage := ∅; localStorage := ∅; journal := [] |}.

(** The same code evaluated where there is no [window]. *)
Definition server : env :=
  {| has_window := false; sessionStorage := ∅; localStorage := ∅; journal := [] |}.

(** A browser that holds identifiers stored with their hyphens, 36
    characters long. *)
Definition stale : env :=
  {| has_window := true;
     sessionStorage := {[ str "sessionId" := uuidA ]};
     localStorage := {[ str "userId" := uuidA ]};
     journal := [] |}.

(** A browser that holds empty identifiers. *)
Definition emptied : env :=
  {| has_window := true;
     sessionStorage := {[ str "sessionId" := [] ]};
     localStorage := {[ str "userId" := [] ]};
     journal := [] |}.

(** V8's wording. *)
Definition v8_null_read : jsstring :=
  str "Cannot read properties of null (reading 'output_data')".

(** The component once mounted in [browser]. *)
Definition mounted : state := (mount uuidA uuidB browser).1.

Definition reply_with (content : value) : response :=
  {| status := 200%N;
     json := Normal (VObject [(str "output_data", VObject [(str "content", content)])]) |}.

Definition server_error : response :=
  {| status := 500%N; json := Throw (str "Unexpected token") |}.

End Sample.

(** ** Presentation logic of [AgentComponent] *)

Module View.
Import Controller.

(** [getContainerHeight] *)
Definition getContainerHeight (st : state) : jsstring :=
  if length (conversation st) =? 0 then str "auto"
  else if length (conversation st) <=? 2 then str "150px"
  else str "300px".

(** [getChatAreaHeight] *)
Definition getChatAreaHeight (st : state) : jsstring :=
  if length (conversation st) =? 0 then str "0px"
  else if length (conversation st) <=? 2 then str "80px"
  else str "180px".

(** [conversation.length > 0 && (...)]: the chat container is rendered. *)
Definition chat_visible (st : state) : bool :=
  0 <? length (conversation st).

(** [disabled={isLoading || !message.trim()}] on the submit button. *)
Definition submit_disabled (st : state) : bool :=
  isLoading st || negb (truthy_string (trim (message st))).

(** [disabled={isLoading}] on the suggestion button. *)
Definition prompt_disabled (st : state) : bool := isLoading st.

(** [error && (...)]: the error line is rendered. *)
Definition error_shown (st : state) : bool :=
  match error st with
  | Some m => truthy_string m
  | None => false
  end.

(** [onChange={(e) => setMessage(e.target.value)}] *)
Definition onChange (text : jsstring) (st : state) : state := setMessage text st.

(** [handleSubmit]: after the two calls on the DOM event,
    [submitMessage(message)]. *)
Definition handleSubmit (w : world) : world := call (message (ui w)) w.

(** The rotation of the suggestions.  The index is a number; [None] is NaN,
    which [(prev + 1) % length] yields for an empty list and which stays. *)
Definition next_suggestion (prompts : list jsstring) (index : option nat) : option nat :=
  match index with
  | None => None
  | Some prev =>
      if length prompts =? 0 then None
      else Some ((prev + 1) mod length prompts)
  end.

(** [chatConfig.suggestedPrompts[currentSuggestionIndex]]; [None] is
    [undefined]. *)
Definition currentSuggestion (prompts : list jsstring) (index : option nat)
  : option jsstring :=
  match index with
  | None => None
  | Some i => prompts !! i
  end.

(** The index after [ticks] firings of the interval, from [useState(0)]. *)
Definition suggestion_after (prompts : list jsstring) (ticks : nat) : option nat :=
  Nat.iter ticks (next_suggestion prompts) (Some 0).

End View.

(** ** The suggestion button and its timer *)

Module Page.
Import Controller View.

(** The component together with the callbacks that [setTimeout] holds,
    oldest first; each of them is [() => submitMessage(prompt)] and is kept
    as its prompt. *)
Record page := {
  component : world;
  timers : list jsstring
}.

Definition loaded (st : state) : page :=
  {| component := start st; timers := [] |}.

(** A setter called from outside [submitMessage]. *)
Definition with_ui (f : state -> state) (w : world) : world :=
  {| ui := f (ui w); suspended := suspended w; next := next w; trace := trace w |}.

(** [handlePromptClick]: [setMessage(prompt)], then
    [setTimeout(() => { submitMessage(prompt) }, 0)]. *)
Definition handlePromptClick (prompt : jsstring) (p : page) : page :=
  {| component := with_ui (setMessage prompt) (component p);
     timers := timers p ++ [prompt] |}.

(** A click on the suggestion button: a disabled button does not call its
    [onClick]. *)
Definition click_prompt (prompt : jsstring) (p : page) : page :=
  if prompt_disabled (ui (component p)) then p
  else handlePromptClick prompt p.

(** The oldest timer fires: its callback calls [submitMessage]. *)
Definition timer_fires (p : page) : page :=
  match timers p with
  | [] => p
  | prompt :: rest => {| component := call prompt (component p); timers := rest |}
  end.

End Page.

(** ** Reading a run's trace *)

Module Trace.
Import Controller.

(** The messages appended, in order. *)
Fixpoint appended (t : list event) : list Message :=
  match t with
  | [] => []
  | Did _ (Append m) :: t' => m :: appended t'
  | _ :: t' => appended t'
  end.

(** The requests issued, in order. *)
Fixpoint requests (t : list event) : list request :=
  match t with
  | [] => []
  | Did _ (Fetch r) :: t' => r :: requests t'
  | _ :: t' => requests t'
  end.

Definition has_role (r : Role) (m : Message) : bool :=
  match role m, r with
  | user, user | agent, agent => true
  | _, _ => false
  end.

Definition count_role (r : Role) (ms : list Message) : nat :=
  length (List.filter (has_role r) ms).

(** A call of [submitMessage] that passes the guard. *)
Definition validated (i : input) : bool :=
  match i with
  | Submit userInput => negb (blank userInput)
  | _ => false
  end.

(** A request of this component for the identifiers of [st]: the fixed
    route, method and header, and the two identifiers in the payload. *)
Definition addressed (st : state) (r : request) : Prop :=
  url r = str "/api/proxy"
  /\ method r = str "POST"
  /\ headers r = [(str "Content-Type", str "application/json")]
  /\ member (str "user_id") (payload r) = VString (userId st)
  /\ member (str "session_id") (payload r) = VString (sessionId st)
  /\ member (str "stateful") (payload r) = VBool true
  /\ member (str "stream") (payload r) = VBool false
  /\ member (str "verbose") (payload r) = VBool false.

End Trace.

(** ** The variant that reads the body of a failed response

    One of the widget's variants differs from [src/pages/index.js] in the
    branch taken for a status that is not 2xx:
    [const errorText = await res.text()] and then
    [throw new Error(`Server error: ${res.status} - ${errorText}`)]. *)

Module WithBody.
Import Controller.

(** A response as this variant reads it: what [res.text()] settles to
    beside the status and [res.json()]. *)
Record response := {
  head : Controller.response;
  text : completion jsstring
}.

(** The error thrown in the branch [!res.ok]: the rejection of
    [res.text()] if it rejects, the new [Error] otherwise. *)
Definition not_ok_message (res : response) : jsstring :=
  match text res with
  | Throw m => m
  | Normal errorText =>
      str "Server error: " ++ number_to_string (status (head res))
        ++ str " - " ++ errorText
  end.

Section Engine.

Variable null_read_message : jsstring.

(** One invocation run to its end with nothing else in between. *)
Definition submitMessage (userInput : jsstring) (net : completion response) (st : state)
  : state * list effect :=
  match submitMessage_enter userInput st with
  | (st1, fx1, None) => (st1, fx1)
  | (st1, fx1, Some _) =>
      match net with
      | Throw m =>
          let '(st2, fx2, _) := catch_finally m st1 in (st2, fx1 ++ fx2)
      | Normal res =>
          if negb (ok (head res)) then
            let '(st2, fx2, _) := catch_finally (not_ok_message res) st1 in
            (st2, fx1 ++ fx2)
          else
            let '(st3, fx3, _) :=
              submitMessage_after_json null_read_message (json (head res)) st1 in
            (st3, fx1 ++ fx3)
      end
  end.

End Engine.

End WithBody.

(** ** More sample inputs *)

Module Fixture.
Import Identity Controller.

(** [chatConfig.suggestedPrompts] of [src/config/config.js]. *)
Definition suggestedPrompts : list jsstring :=
  [str "I spend too much time with computers.";
   str "I feel overwhelmed trying to keep up with AI trends.";
   str "I am anxious about the future."].

(** A tab whose storage holds identifiers some other code wrote. *)
Definition foreign : env :=
  {| has_window := true;
     sessionStorage := {[ str "sessionId" := str "tab-7"; str "theme" := str "dark" ]};
     localStorage := {[ str "userId" := str "alice"; str "lang" := str "en" ]};
     journal := [] |}.

Definition not_found : WithBody.response :=
  {| WithBody.head := {| status := 404%N; json := Throw (str "Unexpected token") |};
     WithBody.text := Normal (str "Not Found") |}.

Definition typed (text : jsstring) : state :=
  View.onChange text Sample.mounted.


End Fixture.

(** * Properties *)

(** ** Strings *)

Lemma trimStart_blank s : blank s = true -> trimStart s = [].
Proof.
  induction s as [|c s IH]; simpl; [done|].
  intros [Hc Hs]%andb_true_iff. rewrite Hc. auto.
Qed.

Lemma trimEnd_keeps_head c s :
  is_white_space c = false -> truthy_string (trimEnd (c :: s)) = true.
Proof. intros Hc. simpl. rewrite Hc. by destruct (trimEnd s). Qed.

Lemma trimStart_not_blank s :
  blank s = false ->
  exists c r, trimStart s = c :: r /\ is_white_space c = false.
Proof.
  induction s as [|c s IH]; simpl; [done|].
  destruct (is_white_space c) eqn:Hc; simpl; eauto.
Qed.

(** [!userInput.trim()] holds exactly for the white-space-only inputs. *)
Lemma trim_truthy s : truthy_string (trim s) = negb (blank s).
Proof.
  unfold trim. destruct (blank s) eqn:Hb; simpl.
  - by rewrite trimStart_blank.
  - destruct (trimStart_not_blank s Hb) as (c & r & -> & Hc).
    by apply trimEnd_keeps_head.
Qed.

Lemma digits_app_nonempty d : d <> Nil -> digits d <> [].
Proof. by destruct d. Qed.

Lemma number_to_string_nonempty n : number_to_string n <> [].
Proof.
  unfold number_to_string. apply digits_app_nonempty.
  destruct n as [|p]; simpl; [done|].
  apply DecimalPos.Unsigned.to_uint_nonnil.
Qed.

Lemma digits_inj d d' : digits d = digits d' -> d = d'.
Proof.
  revert d'. induction d; intros [] H; simpl in H; try discriminate;
    try reflexivity; f_equal; apply IHd; congruence.
Qed.

Lemma digits_are_digits d : forallb Numeral.is_digit (digits d) = true.
Proof. induction d; simpl; done. Qed.

Lemma decimal_value_acc d acc :
  fold_left (fun a c => (10 * a + (c - 48))%N) (digits d) (Npos acc)
  = Npos (Pos.of_uint_acc d acc).
Proof.
  revert acc. induction d; intros acc; cbn [digits fold_left Pos.of_uint_acc];
    [reflexivity|rewrite <- IHd; f_equal; lia ..].
Qed.

Lemma decimal_value_digits d : Numeral.decimal_value (digits d) = N.of_uint d.
Proof.
  unfold Numeral.decimal_value, N.of_uint.
  induction d; cbn [digits fold_left Pos.of_uint]; [reflexivity|exact IHd|..];
    apply (decimal_value_acc d).
Qed.

(** [`${n}`] is a non-empty string of decimal digits that denotes [n]. *)
Lemma number_to_string_decimal n :
  number_to_string n <> []
  /\ forallb Numeral.is_digit (number_to_string n) = true
  /\ Numeral.decimal_value (number_to_string n) = n.
Proof.
  split_and!.
  - apply number_to_string_nonempty.
  - apply digits_are_digits.
  - unfold number_to_string. rewrite decimal_value_digits.
    apply DecimalN.Unsigned.of_to.
Qed.

(** The rendering of a status determines the status. *)
Lemma number_to_string_inj n n' :
  number_to_string n = number_to_string n' -> n = n'.
Proof.
  intros H. apply DecimalN.Unsigned.to_uint_inj. by apply digits_inj.
Qed.

(** ** Identity Store *)

Section IdentityFacts.
Import Identity.

Lemma fresh_id_length uuid : length (fresh_id uuid) <= 32.
Proof. unfold fresh_id, slice. rewrite length_take. lia. Qed.

Lemma replace_hyphens_hex c s :
  is_hex c = true -> replace_hyphens (c :: s) = c :: replace_hyphens s.
Proof.
  intros H. simpl. destruct (N.eqb_spec c hyphen) as [->|]; [done|done].
Qed.

Lemma replace_hyphens_hyphen c s :
  N.eqb c hyphen = true -> replace_hyphens (c :: s) = replace_hyphens s.
Proof. intros H. simpl. by rewrite H. Qed.

(** A UUID loses its four hyphens and nothing else. *)
Lemma uuid_stripped uuid :
  is_uuid uuid = true -> length (replace_hyphens uuid) = 32.
Proof.
  unfold is_uuid. intros [Hlen Hshape]%andb_true_iff.
  apply Nat.eqb_eq in Hlen.
  do 36 (destruct uuid as [|? uuid]; [discriminate|]).
  destruct uuid; [|discriminate]. clear Hlen.
  cbn [uuid_shape existsb Nat.eqb orb] in Hshape.
  repeat (apply andb_true_iff in Hshape as [? Hshape]).
  repeat first [ rewrite replace_hyphens_hex by assumption
               | rewrite replace_hyphens_hyphen by assumption ].
  reflexivity.
Qed.

Lemma fresh_id_uuid uuid :
  is_uuid uuid = true ->
  fresh_id uuid = replace_hyphens uuid /\ length (fresh_id uuid) = 32.
Proof.
  intros H%uuid_stripped. unfold fresh_id, slice.
  rewrite Nat.sub_0_r, drop_0, take_ge by lia. done.
Qed.

Lemma fresh_id_truthy uuid :
  is_uuid uuid = true -> truthy_string (fresh_id uuid) = true.
Proof.
  intros [_ H]%fresh_id_uuid. by destruct (fresh_id uuid).
Qed.

Lemma replace_hyphens_no_hyphen s :
  forallb (fun c => negb (N.eqb c hyphen)) (replace_hyphens s) = true.
Proof.
  induction s as [|c s IH]; simpl; [done|].
  destruct (N.eqb c hyphen) eqn:Hc; simpl; [done|]. by rewrite Hc.
Qed.

Lemma forallb_take {A} (f : A -> bool) n l :
  forallb f l = true -> forallb f (take n l) = true.
Proof.
  revert n. induction l as [|x l IH]; intros [|n]; simpl; try done.
  intros [Hx Hl]%andb_true_iff. rewrite Hx. by apply IH.
Qed.

Lemma uuid_stripped_hex uuid :
  is_uuid uuid = true -> forallb is_hex (replace_hyphens uuid) = true.
Proof.
  unfold is_uuid. intros [Hlen Hshape]%andb_true_iff.
  apply Nat.eqb_eq in Hlen.
  do 36 (destruct uuid as [|? uuid]; [discriminate|]).
  destruct uuid; [|discriminate]. clear Hlen.
  cbn [uuid_shape existsb Nat.eqb orb] in Hshape.
  repeat (apply andb_true_iff in Hshape as [? Hshape]).
  repeat first [ rewrite replace_hyphens_hex by assumption
               | rewrite replace_hyphens_hyphen by assumption ].
  cbn [forallb replace_hyphens].
  repeat (apply andb_true_iff; split; [assumption|]). done.
Qed.

(** [replace(/-/g, '')] keeps exactly the code units that are not hyphens,
    in their order. *)
Lemma replace_hyphens_filter s :
  replace_hyphens s = List.filter (fun c => negb (N.eqb c hyphen)) s.
Proof.
  induction s as [|c s IH]; simpl; [done|].
  destruct (N.eqb c hyphen); simpl; by rewrite IH.
Qed.

Lemma fresh_id_filter uuid :
  fresh_id uuid = take 32 (List.filter (fun c => negb (N.eqb c hyphen)) uuid).
Proof.
  unfold fresh_id, slice. by rewrite Nat.sub_0_r, drop_0, replace_hyphens_filter.
Qed.

Lemma fresh_id_hex uuid :
  is_uuid uuid = true -> forallb is_hex (fresh_id uuid) = true.
Proof.
  intros Hu. destruct (fresh_id_uuid uuid Hu) as [-> _]. by apply uuid_stripped_hex.
Qed.

Lemma keep_if_short_fresh uuid :
  is_uuid uuid = true -> keep_if_short (Some (fresh_id uuid)) = Some (fresh_id uuid).
Proof.
  intros H. unfold keep_if_short.
  rewrite fresh_id_truthy by done.
  destruct (fresh_id_uuid uuid H) as [_ ->]. done.
Qed.

(** What [keep_if_short] lets through is non-empty and short. *)
Lemma keep_if_short_Some v id :
  keep_if_short v = Some id ->
  v = Some id /\ truthy_string id = true /\ length id <= 32.
Proof.
  destruct v as [s|]; simpl; [|done].
  destruct (truthy_string s) eqn:Ht; simpl; [|done].
  destruct (Nat.leb_spec (length s) 32); [|done].
  intros [= <-]. done.
Qed.

Lemma area_getItem sc key e sc' :
  area sc' (getItem sc key e).2 = area sc' e.
Proof. by destruct sc'. Qed.

Lemma area_setItem_eq sc key v e :
  area sc (setItem sc key v e) = <[key := v]> (area sc e).
Proof. by destruct sc. Qed.

Lemma area_setItem_ne sc sc' key v e :
  sc <> sc' -> area sc' (setItem sc key v e) = area sc' e.
Proof. by destruct sc, sc'. Qed.

(** The three ways a read can go. *)
Lemma read_id_no_window sc key uuid e :
  has_window e = false -> read_id sc key uuid e = ([], e).
Proof. unfold read_id. by intros ->. Qed.

Lemma read_id_kept sc key uuid e id :
  has_window e = true ->
  keep_if_short (area sc e !! key) = Some id ->
  read_id sc key uuid e = (id, (getItem sc key e).2).
Proof.
  unfold read_id. intros -> Hk. simpl. rewrite Hk.
  apply keep_if_short_Some in Hk as (_ & -> & _). done.
Qed.

Lemma read_id_regenerated sc key uuid e :
  has_window e = true ->
  keep_if_short (area sc e !! key) = None ->
  read_id sc key uuid e
  = (fresh_id uuid, setItem sc key (fresh_id uuid) (getItem sc key e).2).
Proof. unfold read_id. intros -> Hk. simpl. by rewrite Hk. Qed.

Lemma has_window_getItem sc key e :
  has_window (getItem sc key e).2 = has_window e.
Proof. done. Qed.

Lemma read_id_twice sc key uuid1 uuid2 e :
  is_uuid uuid1 = true ->
  let r1 := read_id sc key uuid1 e in
  let r2 := read_id sc key uuid2 r1.2 in
  r2.1 = r1.1 /\ forall sc', area sc' r2.2 = area sc' r1.2.
Proof.
  intros Hu. cbv zeta.
  destruct (has_window e) eqn:Hw.
  - destruct (keep_if_short (area sc e !! key)) as [id|] eqn:Hk.
    + rewrite (read_id_kept _ _ uuid1 e id) by done.
      cbn [fst snd].
      rewrite (read_id_kept _ _ uuid2 _ id); [split; [done|by intros []] |done|].
      by rewrite (area_getItem sc key e sc).
    + rewrite (read_id_regenerated _ _ uuid1 e) by done.
      cbn [fst snd].
      rewrite (read_id_kept _ _ uuid2 _ (fresh_id uuid1)); [split; [done|by intros []] |done|].
      rewrite area_setItem_eq, lookup_insert_eq. by apply keep_if_short_fresh.
  - rewrite (read_id_no_window _ _ uuid1) by done. simpl.
    by rewrite (read_id_no_window _ _ uuid2).
Qed.

Lemma read_id_over_long sc key uuid e stored :
  has_window e = true ->
  area sc e !! key = Some stored ->
  32 < length stored ->
  let r := read_id sc key uuid e in
  r.1 = fresh_id uuid
  /\ length r.1 <= 32
  /\ area sc r.2 !! key = Some r.1
  /\ (forall sc', sc <> sc' -> area sc' r.2 = area sc' e)
  /\ journal r.2 = journal e ++ [OpGetItem sc key; OpSetItem sc key (fresh_id uuid)].
Proof.
  intros Hw Hs Hlen. cbv zeta.
  rewrite read_id_regenerated; [|done|].
  - simpl. split_and!; [done|apply fresh_id_length| | |].
    + by rewrite area_setItem_eq, lookup_insert_eq.
    + intros sc' Hne. by rewrite area_setItem_ne.
    + by rewrite <- app_assoc.
  - rewrite Hs. simpl. destruct (Nat.leb_spec (length stored) 32); [lia|].
    by rewrite andb_false_r.
Qed.

Lemma read_id_client sc key uuid e :
  has_window e = true ->
  is_uuid uuid = true ->
  let r := read_id sc key uuid e in
  r.1 <> []
  /\ length r.1 <= 32
  /\ (area sc e !! key = Some [] ->
      r.1 = fresh_id uuid /\ length r.1 = 32 /\ area sc r.2 !! key = Some r.1).
Proof.
  intros Hw Hu. cbv zeta.
  destruct (keep_if_short (area sc e !! key)) as [id|] eqn:Hk.
  - rewrite (read_id_kept _ _ uuid e id) by done. simpl.
    apply keep_if_short_Some in Hk as (Hs & Ht & Hl).
    split_and!; [by destruct id|done|].
    intros He. rewrite He in Hs. injection Hs as <-. done.
  - rewrite read_id_regenerated by done. simpl.
    destruct (fresh_id_uuid uuid Hu) as [_ Hl].
    split_and!; [by destruct (fresh_id uuid)|lia|].
    intros _. by rewrite area_setItem_eq, lookup_insert_eq.
Qed.

End IdentityFacts.

Section IdentityClaims.
Import Identity.

(** C7. Identity Store reads are idempotent within a scope: a second call
    of [getSessionId] (resp. [getUserId]) made right after a first one, on
    the storage the first one left, returns the same identifier, and leaves
    both storage areas as they were.  [uuid1] is the value [uuidv4()] hands
    to the first call if it generates. *)
Theorem identity_reads_idempotent (uuid1 uuid2 : jsstring) (e : env) :
  is_uuid uuid1 = true ->
  (let r1 := getSessionId uuid1 e in
   let r2 := getSessionId uuid2 r1.2 in
   r2.1 = r1.1
   /\ sessionStorage r2.2 = sessionStorage r1.2
   /\ localStorage r2.2 = localStorage r1.2)
  /\
  (let r1 := getUserId uuid1 e in
   let r2 := getUserId uuid2 r1.2 in
   r2.1 = r1.1
   /\ sessionStorage r2.2 = sessionStorage r1.2
   /\ localStorage r2.2 = localStorage r1.2).
Proof.
  intros Hu. split; cbv zeta.
  - destruct (read_id_twice SessionScope (str "sessionId") uuid1 uuid2 e Hu) as [H1 H2].
    split_and!; [exact H1|exact (H2 SessionScope)|exact (H2 LocalScope)].
  - destruct (read_id_twice LocalScope (str "userId") uuid1 uuid2 e Hu) as [H1 H2].
    split_and!; [exact H1|exact (H2 SessionScope)|exact (H2 LocalScope)].
Qed.

(** C8. If the identifier stored for a scope is longer than 32 characters,
    the next read of that scope generates a new identifier, writes it to
    that scope (and to nothing else), and returns it.  The identifier is
    made from the value of a call of [uuidv4()] and from nothing else: that
    value without its hyphens, cut to 32 characters.  It has at most 32
    characters and differs from the stored one; when [uuidv4()] returns a
    UUID it is the UUID's 32 hexadecimal digits. *)
Theorem over_long_identifier_regenerated (uuid stored : jsstring) (e : env) :
  has_window e = true ->
  32 < length stored ->
  (sessionStorage e !! str "sessionId" = Some stored ->
   let r := getSessionId uuid e in
   r.1 = take 32 (List.filter (fun c => negb (N.eqb c 45%N)) uuid)
   /\ r.1 <> stored
   /\ length r.1 <= 32
   /\ (is_uuid uuid = true -> length r.1 = 32 /\ forallb is_hex r.1 = true)
   /\ sessionStorage r.2 !! str "sessionId" = Some r.1
   /\ localStorage r.2 = localStorage e
   /\ journal r.2 = journal e ++ [OpGetItem SessionScope (str "sessionId");
                                  OpSetItem SessionScope (str "sessionId") r.1])
  /\
  (localStorage e !! str "userId" = Some stored ->
   let r := getUserId uuid e in
   r.1 = take 32 (List.filter (fun c => negb (N.eqb c 45%N)) uuid)
   /\ r.1 <> stored
   /\ length r.1 <= 32
   /\ (is_uuid uuid = true -> length r.1 = 32 /\ forallb is_hex r.1 = true)
   /\ localStorage r.2 !! str "userId" = Some r.1
   /\ sessionStorage r.2 = sessionStorage e
   /\ journal r.2 = journal e ++ [OpGetItem LocalScope (str "userId");
                                  OpSetItem LocalScope (str "userId") r.1]).
Proof.
  intros Hw Hlen.
  assert (Hnew : fresh_id uuid <> stored).
  { intros <-. pose proof (fresh_id_length uuid). lia. }
  assert (Hshape : is_uuid uuid = true ->
                   length (fresh_id uuid) = 32 /\ forallb is_hex (fresh_id uuid) = true).
  { intros Hu. split; [by destruct (fresh_id_uuid uuid Hu)|by apply fresh_id_hex]. }
  split; intros Hs; cbv zeta.
  - destruct (read_id_over_long SessionScope _ uuid e stored Hw Hs Hlen)
      as (H1 & H2 & H3 & H4 & H5).
    unfold getSessionId. rewrite H1 in *.
    split_and!;
      [apply fresh_id_filter|done|done|done|exact H3|by apply (H4 LocalScope)|exact H5].
  - destruct (read_id_over_long LocalScope _ uuid e stored Hw Hs Hlen)
      as (H1 & H2 & H3 & H4 & H5).
    unfold getUserId. rewrite H1 in *.
    split_and!;
      [apply fresh_id_filter|done|done|done|exact H3|by apply (H4 SessionScope)|exact H5].
Qed.

(** C9. Outside a client execution context (no [window]) [getSessionId]
    and [getUserId] return the empty string and leave the environment as it
    was: both storage areas unchanged, no storage call made. *)
Theorem no_window_no_op (uuid : jsstring) (e : env) :
  has_window e = false ->
  getSessionId uuid e = ([], e) /\ getUserId uuid e = ([], e).
Proof.
  intros Hw. split; by apply read_id_no_window.
Qed.


End IdentityClaims.

Section IdentityWitnesses.
Import Identity Sample.

(** Two reads in a tab with nothing stored: the second returns what the
    first generated. *)
Lemma identity_reads_idempotent_witness :
  is_uuid uuidA = true
  /\ (getSessionId uuidB (getSessionId uuidA browser).2).1 = (getSessionId uuidA browser).1
  /\ (getUserId uuidB (getUserId uuidA browser).2).1 = (getUserId uuidA browser).1.
Proof.
  assert (Hu : is_uuid uuidA = true) by reflexivity.
  destruct (identity_reads_idempotent uuidA uuidB browser Hu) as [[H1 _] [H2 _]].
  exact (conj Hu (conj H1 H2)).
Defined.

(** A tab holding 36-character identifiers. *)
Lemma over_long_identifier_regenerated_witness :
  32 < length uuidA
  /\ sessionStorage stale !! str "sessionId" = Some uuidA
  /\ is_uuid uuidB = true
  /\ (getSessionId uuidB stale).1 = str "9b2c1d3e4f5a4b6c8d7e0f1a2b3c4d5e"
  /\ length (getSessionId uuidB stale).1 = 32
  /\ (getUserId uuidB stale).1 = str "9b2c1d3e4f5a4b6c8d7e0f1a2b3c4d5e".
Proof.
  assert (Hw : has_window stale = true) by reflexivity.
  assert (Hl : 32 < length uuidA) by (vm_compute; lia).
  assert (Hs : sessionStorage stale !! str "sessionId" = Some uuidA)
    by apply lookup_singleton_eq.
  assert (Hu : is_uuid uuidB = true) by reflexivity.
  destruct (over_long_identifier_regenerated uuidB uuidA stale Hw Hl) as [H1 H2].
  destruct (H1 Hs) as (E1 & _ & _ & S1 & _).
  destruct (H2 (lookup_singleton_eq _ _)) as (E2 & _).
  exact (conj Hl (conj Hs (conj Hu (conj E1 (conj (proj1 (S1 Hu)) E2))))).
Defined.

(** The readers evaluated on the server. *)
Lemma no_window_no_op_witness :
  has_window server = false
  /\ getSessionId uuidA server = ([], server)
  /\ getUserId uuidA server = ([], server).
Proof.
  split; [reflexivity|].
  apply (no_window_no_op uuidA server). reflexivity.
Defined.


End IdentityWitnesses.

(** ** Request Controller *)

Section ControllerFacts.
Import Controller.

Variable null_read_message : jsstring.

Lemma enter_blank userInput st :
  blank userInput = true -> submitMessage_enter userInput st = (st, [], None).
Proof.
  intros Hb. unfold submitMessage_enter. by rewrite trim_truthy, Hb.
Qed.

Lemma enter_valid userInput st :
  blank userInput = false ->
  submitMessage_enter userInput st
  = (setIsLoading true
       (setConversation (fun prev => prev ++ [user_message userInput])
          (setError None (setMessage [] st))),
     [Append (user_message userInput);
      Fetch (build_request (user_message userInput) st)],
     Some AwaitFetch).
Proof.
  intros Hb. unfold submitMessage_enter. by rewrite trim_truthy, Hb.
Qed.

(** A segment that ends the invocation has run the [finally] block. *)
Lemma after_fetch_end r st st' fx :
  submitMessage_after_fetch r st = (st', fx, None) -> isLoading st' = false.
Proof.
  unfold submitMessage_after_fetch, catch_finally.
  destruct r as [res|m]; [destruct (ok res)|]; simpl; intros [= <- _]; done.
Qed.

Lemma after_fetch_await r st st' fx k :
  submitMessage_after_fetch r st = (st', fx, Some k) ->
  st' = st /\ fx = [] /\ exists p, k = AwaitJson p.
Proof.
  unfold submitMessage_after_fetch, catch_finally.
  destruct r as [res|m]; [destruct (ok res)|]; simpl; intros [=]; subst; eauto.
Qed.

Lemma after_json_end p st :
  exists st' fx, submitMessage_after_json null_read_message p st = (st', fx, None) /\ isLoading st' = false.
Proof.
  unfold submitMessage_after_json, catch_finally.
  destruct p as [data|m]; [destruct (agentReply _ data)|]; simpl; eauto.
Qed.

(** The reply in terms of the two reads: the content when both
    [output_data] and [output_data.content] are truthy, the fallback
    otherwise. *)
Lemma agentReply_defined data :
  data <> VNull -> data <> VUndefined ->
  agentReply null_read_message data
  = Normal (let c := member (str "content") (member (str "output_data") data) in
            if truthy (member (str "output_data") data) && truthy c
            then c else VString fallback).
Proof.
  intros Hn Hu. unfold agentReply.
  destruct data as [| |b|n|s|items|fields]; try done; simpl.
  destruct (own_property (str "output_data") fields) as [| |b|n|s|items|fields'];
    simpl; try done.
  - by destruct b.
  - by destruct n.
  - by destruct s.
  - by destruct (truthy (own_property (str "content") fields')).
Qed.

Lemma agentReply_null :
  agentReply null_read_message VNull = Throw null_read_message.
Proof. done. Qed.

(** One invocation run alone, by the way its [fetch] settles. *)
Lemma submitMessage_blank userInput net st :
  blank userInput = true ->
  submitMessage null_read_message userInput net st = (st, []).
Proof. intros Hb. unfold submitMessage. by rewrite enter_blank. Qed.

Lemma submitMessage_failed userInput net st :
  blank userInput = false ->
  failed net = true ->
  let cause := match net with
               | Throw m => m
               | Normal res => str "Server error: " ++ number_to_string (status res)
               end in
  submitMessage null_read_message userInput net st
  = (setIsLoading false (setError (Some cause) (submitMessage_enter userInput st).1.1),
     [Append (user_message userInput);
      Fetch (build_request (user_message userInput) st);
      ConsoleError cause]).
Proof.
  intros Hb Hf. unfold submitMessage. rewrite enter_valid by done.
  destruct net as [res|m]; simpl in Hf |- *; [|done].
  by rewrite Hf.
Qed.

Lemma submitMessage_thrown userInput res m st :
  blank userInput = false ->
  ok res = true ->
  match json res with
  | Throw m' => m' = m
  | Normal data => agentReply null_read_message data = Throw m
  end ->
  submitMessage null_read_message userInput (Normal res) st
  = (setIsLoading false (setError (Some m) (submitMessage_enter userInput st).1.1),
     [Append (user_message userInput);
      Fetch (build_request (user_message userInput) st);
      ConsoleError m]).
Proof.
  intros Hb Hok Hj. unfold submitMessage. rewrite enter_valid by done.
  simpl. rewrite Hok. simpl.
  destruct (json res) as [data|m']; simpl; [by rewrite Hj | by subst].
Qed.

Lemma submitMessage_replied userInput res data reply st :
  blank userInput = false ->
  ok res = true ->
  json res = Normal data ->
  agentReply null_read_message data = Normal reply ->
  let agentMessage := {| role := agent; content := reply |} in
  submitMessage null_read_message userInput (Normal res) st
  = (setIsLoading false
       (setMessage []
          (setConversation (fun prev => prev ++ [agentMessage])
             (submitMessage_enter userInput st).1.1)),
     [Append (user_message userInput);
      Fetch (build_request (user_message userInput) st);
      Append agentMessage]).
Proof.
  intros Hb Hok Hj Hr. unfold submitMessage. rewrite enter_valid by done.
  simpl. rewrite Hok, Hj. simpl. by rewrite Hr.
Qed.

(** Every way an invocation can go is one of the three above. *)
Lemma submitMessage_cases (net : completion response) :
  failed net = true
  \/ (exists res m, net = Normal res /\ ok res = true /\
        match json res with
        | Throw m' => m' = m
        | Normal data => agentReply null_read_message data = Throw m
        end)
  \/ (exists res data reply, net = Normal res /\ ok res = true /\
        json res = Normal data /\ agentReply null_read_message data = Normal reply).
Proof.
  destruct net as [res|m]; [|by left].
  destruct (ok res) eqn:Hok; [|left; simpl; by rewrite Hok].
  right. destruct (json res) as [data|m] eqn:Hj.
  - destruct (agentReply null_read_message data) as [reply|m] eqn:Hr.
    + right. exists res, data, reply. done.
    + left. exists res, m. by rewrite Hj.
  - left. exists res, m. by rewrite Hj.
Qed.

End ControllerFacts.

Section ControllerClaims.
Import Controller.

Variable null_read_message : jsstring.

(** C4. For every non-blank input, [submitMessage] appends exactly one user
    Message, whose content is the trimmed input, and then issues exactly
    one network call; the request carries
    [{ data: { message }, stateful: true, stream: false, user_id,
       session_id, verbose: false }]
    with that user Message and the identifiers held in the state cells, and
    nothing of the conversation so far. *)
Theorem submit_appends_then_fetches
    (userInput : jsstring) (st : state) (net : completion response) :
  blank userInput = false ->
  let userMessage := {| role := user; content := VString (trim userInput) |} in
  let req :=
    {| url := str "/api/proxy";
       method := str "POST";
       headers := [(str "Content-Type", str "application/json")];
       payload :=
         VObject
           [(str "data",
             VObject [(str "message",
                       VObject [(str "role", VString (str "user"));
                                (str "content", VString (trim userInput))])]);
            (str "stateful", VBool true);
            (str "stream", VBool false);
            (str "user_id", VString (userId st));
            (str "session_id", VString (sessionId st));
            (str "verbose", VBool false)] |} in
  (exists st',
      submitMessage_enter userInput st
      = (st', [Append userMessage; Fetch req], Some AwaitFetch)
      /\ conversation st' = conversation st ++ [userMessage])
  /\ (let fx := (submitMessage null_read_message userInput net st).2 in
      (exists rest, fx = Append userMessage :: Fetch req :: rest)
      /\ List.filter is_fetch fx = [Fetch req]
      /\ List.filter (is_append user) fx = [Append userMessage]).
Proof.
  intros Hb. cbv zeta. split.
  - eexists. rewrite enter_valid by done. split; reflexivity.
  - destruct (submitMessage_cases null_read_message net)
      as [Hf | [(res & m & -> & Hok & Hj) | (res & data & reply & -> & Hok & Hj & Hr)]].
    + rewrite submitMessage_failed by done. simpl. eauto.
    + rewrite (submitMessage_thrown _ _ _ m) by done. simpl. eauto.
    + rewrite (submitMessage_replied _ _ _ data reply) by done. simpl. eauto.
Qed.

(** C5. For every blank or white-space-only input [submitMessage] is a
    no-op: it returns at the guard with every state cell as it was
    (conversation, [isLoading] and [error] included), makes no network
    call, and leaves nothing suspended. *)
Theorem blank_submit_no_op
    (userInput : jsstring) (st : state) (net : completion response) (w : world) :
  blank userInput = true ->
  submitMessage_enter userInput st = (st, [], None)
  /\ submitMessage null_read_message userInput net st = (st, [])
  /\ step null_read_message w (Submit userInput) = w.
Proof.
  intros Hb. split_and!.
  - by apply enter_blank.
  - by apply submitMessage_blank.
  - simpl. unfold call. by rewrite enter_blank.
Qed.

(** C3, as the code has it. When a validated submission fails, by a
    transport failure or by a response whose status is not 2xx, no agent
    Message is appended, the user Message stays in the conversation, and
    [error] is set to the cause.  For a status that is not 2xx the cause is
    the text ["Server error: "] followed by the status written in decimal,
    which is not empty.  For a transport failure it is the message of the
    rejection as it comes, so it is empty when that message is empty. *)
Theorem failure_keeps_user_message
    (userInput : jsstring) (st : state) (net : completion response) :
  blank userInput = false ->
  failed net = true ->
  let r := submitMessage null_read_message userInput net st in
  exists cause,
    error r.1 = Some cause
    /\ match net with
       | Throw m => cause = m
       | Normal res =>
           exists ds,
             cause = str "Server error: " ++ ds
             /\ ds <> []
             /\ forallb Numeral.is_digit ds = true
             /\ Numeral.decimal_value ds = status res
       end
    /\ (cause = [] -> net = Throw [])
    /\ conversation r.1
       = conversation st ++ [{| role := user; content := VString (trim userInput) |}]
    /\ List.filter (is_append agent) r.2 = []
    /\ isLoading r.1 = false.
Proof.
  intros Hb Hf. cbv zeta.
  rewrite submitMessage_failed by done. rewrite enter_valid by done.
  eexists. split; [reflexivity|].
  split_and!; try done.
  - destruct net as [res|m]; [|done].
    exists (number_to_string (status res)).
    destruct (number_to_string_decimal (status res)) as (H1 & H2 & H3). done.
  - destruct net as [res|m]; [done|]. by intros ->.
Qed.

(** C2, as the code has it. On a 2xx response whose body parses to a value
    other than [null], exactly one agent Message is appended; its content
    is [output_data.content] when [output_data] and [output_data.content]
    are both truthy, and the fallback text otherwise (absent, [null], and
    also the empty string, zero and [false]). *)
Theorem agent_reply_appended
    (userInput : jsstring) (st : state) (res : response) (data : value) :
  blank userInput = false ->
  ok res = true ->
  json res = Normal data ->
  data <> VNull ->
  data <> VUndefined ->
  let output_data := member (str "output_data") data in
  let c := member (str "content") output_data in
  let agentMessage :=
    {| role := agent;
       content := if truthy output_data && truthy c then c
                  else VString (str "No valid response received from agent.") |} in
  let r := submitMessage null_read_message userInput (Normal res) st in
  conversation r.1 = conversation st ++ [user_message userInput; agentMessage]
  /\ List.filter (is_append agent) r.2 = [Append agentMessage]
  /\ error r.1 = None
  /\ isLoading r.1 = false.
Proof.
  intros Hb Hok Hj Hn Hu. cbv zeta.
  rewrite (submitMessage_replied _ _ _ data _ _ Hb Hok Hj (agentReply_defined _ data Hn Hu)).
  rewrite enter_valid by done. simpl.
  split_and!; try done.
  by rewrite <- app_assoc.
Qed.

End ControllerClaims.

(** ** Runs of the component *)

Section ControllerRuns.
Import Controller.

Variable null_read_message : jsstring.

Lemma observe_did id fx :
  fold_left observe (List.map (Did id) fx) (Some (Some id)) = Some (Some id).
Proof.
  induction fx as [|e fx IH]; simpl; [done|]. by rewrite Nat.eqb_refl.
Qed.

Lemma run_app w is1 is2 :
  run null_read_message w (is1 ++ is2)
  = run null_read_message (run null_read_message w is1) is2.
Proof. apply fold_left_app. Qed.

(** [isLoading] is on only while some invocation is suspended. *)
Lemma loading_in_flight_step w i :
  loading_in_flight w -> loading_in_flight (step null_read_message w i).
Proof.
  unfold loading_in_flight. intros Hinv.
  destruct i as [userInput|id r|id]; simpl.
  - unfold call.
    destruct (submitMessage_enter userInput (ui w)) as [[st fx] [k|]]; [|done].
    simpl. intros _. apply insert_non_empty.
  - destruct (suspended w !! id) as [[|p]|]; try done.
    destruct (submitMessage_after_fetch r (ui w)) as [[st fx] [k|]] eqn:Hseg; simpl.
    + intros _. apply insert_non_empty.
    + apply after_fetch_end in Hseg. congruence.
  - destruct (suspended w !! id) as [[|p]|]; try done.
    destruct (after_json_end null_read_message p (ui w)) as (st & fx & -> & Hl).
    simpl. congruence.
Qed.

Lemma loading_in_flight_run inputs w :
  loading_in_flight w -> loading_in_flight (run null_read_message w inputs).
Proof.
  revert w. induction inputs as [|i inputs IH]; intros w Hw; simpl; [done|].
  apply IH. by apply loading_in_flight_step.
Qed.

(** The invocation that ends leaves [isLoading] off. *)
Lemma resolved_not_loading w i id :
  is_Some (suspended w !! id) ->
  suspended (step null_read_message w i) !! id = None ->
  isLoading (ui (step null_read_message w i)) = false.
Proof.
  intros [k Hk]. destruct i as [userInput|id' r|id']; simpl.
  - unfold call.
    destruct (submitMessage_enter userInput (ui w)) as [[st fx] [k'|]]; simpl.
    + destruct (decide (next w = id)) as [->|Hne].
      * by rewrite lookup_insert_eq.
      * rewrite lookup_insert_ne by done. congruence.
    + congruence.
  - destruct (suspended w !! id') as [[|p]|] eqn:Hk'; try congruence.
    destruct (submitMessage_after_fetch r (ui w)) as [[st fx] [k'|]] eqn:Hseg; simpl.
    + destruct (decide (id' = id)) as [->|Hne].
      * by rewrite lookup_insert_eq.
      * rewrite lookup_insert_ne by done. congruence.
    + intros _. by apply after_fetch_end in Hseg.
  - destruct (suspended w !! id') as [[|p]|] eqn:Hk'; try congruence.
    destruct (after_json_end null_read_message p (ui w)) as (st & fx & -> & Hl).
    done.
Qed.

(** Resuming the only suspended invocation keeps the run serial. *)
Lemma one_at_a_time_resumed w id k r :
  one_at_a_time w ->
  suspended w !! id = Some k ->
  (forall st fx, r = (st, fx, None) -> isLoading st = false) ->
  (forall st fx k', r = (st, fx, Some k') -> st = ui w) ->
  one_at_a_time (resumed id w r).
Proof.
  intros [Hidle Hseen] Hk Hend Hawait. unfold one_at_a_time.
  destruct (fold_left observe (trace w) (Some None)) as [[o|]|] eqn:Hfold;
    [|rewrite Hseen in Hk; by apply lookup_empty_Some in Hk|done].
  destruct Hseen as [k0 Hs]. rewrite Hs in Hk.
  apply lookup_singleton_Some in Hk as [-> ->].
  destruct r as [[st fx] [k'|]]; simpl.
  - rewrite (Hawait st fx k' eq_refl). split.
    + intros Hl. apply Hidle in Hl. rewrite Hs in Hl.
      by apply map_non_empty_singleton in Hl.
    + rewrite fold_left_app, Hfold, observe_did.
      exists k'. rewrite Hs. apply insert_singleton_eq.
  - split.
    + intros _. rewrite Hs. apply delete_singleton_eq.
    + rewrite !fold_left_app, Hfold, observe_did. simpl.
      rewrite Nat.eqb_refl, Hs. apply delete_singleton_eq.
Qed.

Lemma one_at_a_time_step w i :
  one_at_a_time w ->
  idle_at_call w i = true ->
  one_at_a_time (step null_read_message w i).
Proof.
  intros Hinv Hen. destruct i as [userInput|id r|id]; simpl.
  - unfold call. destruct (blank userInput) eqn:Hb.
    + by rewrite enter_blank.
    + rewrite enter_valid by done.
      destruct Hinv as [Hidle Hseen]. simpl in Hen.
      apply negb_true_iff, Hidle in Hen.
      unfold one_at_a_time. simpl. split; [done|].
      rewrite fold_left_app.
      destruct (fold_left observe (trace w) (Some None)) as [[o|]|]; simpl.
      * destruct Hseen as [k Hs]. rewrite Hs in Hen.
        by apply map_non_empty_singleton in Hen.
      * rewrite Nat.eqb_refl, Hen. eexists. apply insert_empty.
      * done.
  - destruct (suspended w !! id) as [[|p]|] eqn:Hk; try done.
    apply (one_at_a_time_resumed w id AwaitFetch); [done|done| |].
    + intros st fx. apply after_fetch_end.
    + intros st fx k' H. by apply after_fetch_await in H as [-> _].
  - destruct (suspended w !! id) as [[|p]|] eqn:Hk; try done.
    apply (one_at_a_time_resumed w id (AwaitJson p)); [done|done| |].
    + intros st fx H.
      destruct (after_json_end null_read_message p (ui w)) as (st' & fx' & Hseg & Hl).
      congruence.
    + intros st fx k' H.
      destruct (after_json_end null_read_message p (ui w)) as (st' & fx' & Hseg & Hl).
      congruence.
Qed.

Lemma one_at_a_time_run inputs w :
  one_at_a_time w ->
  guarded null_read_message w inputs = true ->
  one_at_a_time (run null_read_message w inputs).
Proof.
  revert w. induction inputs as [|i inputs IH]; intros w Hw Hg; simpl; [done|].
  simpl in Hg. apply andb_true_iff in Hg as [Hen Hg].
  apply IH; [by apply one_at_a_time_step | done].
Qed.

Lemma one_at_a_time_start st :
  isLoading st = false -> one_at_a_time (start st).
Proof. intros Hl. by split. Qed.

Lemma one_at_a_time_size w :
  one_at_a_time w -> size (suspended w) <= 1 /\ serial (trace w) = true.
Proof.
  intros [_ Hseen]. unfold serial.
  destruct (fold_left observe (trace w) (Some None)) as [[o|]|]; [| |done].
  - destruct Hseen as [k ->]. by rewrite map_size_singleton.
  - rewrite Hseen, map_size_empty. split; [lia|done].
Qed.

End ControllerRuns.

Section RunClaims.
Import Controller.

Variable null_read_message : jsstring.

(** C6. For every validated invocation of [submitMessage], [isLoading] is
    set when the invocation starts and is false when it has completed, on
    every exit path: a reply, a transport failure, a status that is not
    2xx, or an error thrown while the response is handled.  In any
    interleaving of invocations [isLoading] is true only while an
    invocation is in flight, and the step that ends an invocation leaves it
    false. *)
Theorem isLoading_scoped
    (userInput : jsstring) (st : state) (net : completion response)
    (inputs : list input) :
  blank userInput = false ->
  isLoading st = false ->
  (isLoading (submitMessage_enter userInput st).1.1 = true
   /\ (submitMessage_enter userInput st).2 = Some AwaitFetch)
  /\ isLoading (submitMessage null_read_message userInput net st).1 = false
  /\ (let w := run null_read_message (start st) inputs in
      (isLoading (ui w) = true -> suspended w <> ∅)
      /\ (forall i id,
            is_Some (suspended w !! id) ->
            suspended (step null_read_message w i) !! id = None ->
            isLoading (ui (step null_read_message w i)) = false)).
Proof.
  intros Hb Hl. split_and!.
  - by rewrite enter_valid.
  - by rewrite enter_valid.
  - destruct (submitMessage_cases null_read_message net)
      as [Hf | [(res & m & -> & Hok & Hj) | (res & data & reply & -> & Hok & Hj & Hr)]].
    + by rewrite submitMessage_failed.
    + by rewrite (submitMessage_thrown _ _ _ m).
    + by rewrite (submitMessage_replied _ _ _ data reply).
  - cbv zeta. split.
    + apply loading_in_flight_run. unfold loading_in_flight. simpl. congruence.
    + intros i id. apply resolved_not_loading.
Qed.

(** C1, as the code has it. [submitMessage] has no guard of its own.  The
    submissions are serial in every run in which each call of
    [submitMessage] is made at a moment when [isLoading] is false: then at
    most one invocation is in flight at any time, no effect of an
    invocation falls between the user Message append and the resolution of
    another, and such a call finds every earlier invocation resolved.
    That condition is one on the callers; the source does not establish
    it. *)
Theorem guarded_submissions_serial (st : state) (inputs : list input) :
  isLoading st = false ->
  guarded null_read_message (start st) inputs = true ->
  let w := run null_read_message (start st) inputs in
  size (suspended w) <= 1
  /\ serial (trace w) = true
  /\ (forall userInput, idle_at_call w (Submit userInput) = true -> suspended w = ∅).
Proof.
  intros Hl Hg. cbv zeta.
  pose proof (one_at_a_time_run null_read_message inputs (start st)
                (one_at_a_time_start st Hl) Hg) as Hinv.
  destruct (one_at_a_time_size _ Hinv) as [Hsize Hserial].
  split_and!; [done|done|].
  intros userInput Hen. destruct Hinv as [Hidle _].
  apply Hidle. by apply negb_true_iff in Hen.
Qed.

End RunClaims.

Section ControllerExamples.
Import Controller Sample.

(** C1 fails as stated: nothing in [submitMessage] looks at [isLoading],
    so a second call made while the first is waiting for its [fetch]
    appends its user Message at once, and two invocations are in flight. *)
Lemma unguarded_submissions_overlap :
  let w := run v8_null_read (start mounted) [Submit (str "first"); Submit (str "second")] in
  size (suspended w) = 2
  /\ serial (trace w) = false
  /\ conversation (ui w) = [user_message (str "first"); user_message (str "second")]
  /\ suspended w !! 0 = Some AwaitFetch.
Proof. vm_compute. done. Qed.

(** C2 fails as stated: a content that is present and not null, the empty
    string, is not what the agent Message carries. *)
Lemma empty_content_replaced_by_fallback :
  let res := reply_with (VString []) in
  let r := submitMessage v8_null_read (str "hello") (Normal res) mounted in
  ok res = true
  /\ (exists data, json res = Normal data
        /\ member (str "content") (member (str "output_data") data) = VString [])
  /\ conversation r.1
     = [user_message (str "hello");
        {| role := agent; content := VString (str "No valid response received from agent.") |}]
  /\ conversation r.1
     <> [user_message (str "hello"); {| role := agent; content := VString [] |}].
Proof.
  cbv zeta. split_and!.
  - reflexivity.
  - eexists. split; reflexivity.
  - reflexivity.
  - vm_compute. discriminate.
Qed.

(** C3 fails as stated: a [fetch] that rejects with an error whose message
    is the empty string leaves [error] set to the empty string. *)
Lemma empty_rejection_leaves_empty_error :
  let r := submitMessage v8_null_read (str "hello") (Throw []) mounted in
  blank (str "hello") = false
  /\ failed (Throw (A:=response) []) = true
  /\ error r.1 = Some []
  /\ conversation r.1 = [{| role := user; content := VString (str "hello") |}].
Proof. cbv zeta. split_and!; reflexivity. Qed.

(** Two submissions, the second made after the first has resolved. *)
Lemma guarded_submissions_serial_witness :
  let inputs :=
    [Submit (str "first"); FetchSettles 0 (Normal (reply_with (VString (str "hi there"))));
     JsonSettles 0; Submit (str "second"); FetchSettles 1 (Normal server_error)] in
  let w := run v8_null_read (start mounted) inputs in
  isLoading mounted = false
  /\ guarded v8_null_read (start mounted) inputs = true
  /\ size (suspended w) <= 1
  /\ serial (trace w) = true.
Proof.
  cbv zeta.
  assert (Hl : isLoading mounted = false) by reflexivity.
  split; [exact Hl|].
  match goal with |- ?G = true /\ _ => assert (Hg : G = true) by (vm_compute; reflexivity) end.
  split; [exact Hg|].
  destruct (guarded_submissions_serial v8_null_read mounted _ Hl Hg) as (H1 & H2 & _).
  exact (conj H1 H2).
Defined.

(** The success scenario: [hello] answered by [hi there]. *)
Lemma agent_reply_appended_witness :
  let res := reply_with (VString (str "hi there")) in
  conversation (submitMessage v8_null_read (str "hello") (Normal res) initial).1
  = [user_message (str "hello"); {| role := agent; content := VString (str "hi there") |}].
Proof.
  cbv zeta.
  pose (data := VObject [(str "output_data",
                          VObject [(str "content", VString (str "hi there"))])]).
  assert (Hb : blank (str "hello") = false) by reflexivity.
  assert (Hok : ok (reply_with (VString (str "hi there"))) = true) by reflexivity.
  assert (Hj : json (reply_with (VString (str "hi there"))) = Normal data) by reflexivity.
  assert (Hn : data <> VNull) by discriminate.
  assert (Hu : data <> VUndefined) by discriminate.
  exact (proj1 (agent_reply_appended v8_null_read (str "hello") initial
                  (reply_with (VString (str "hi there"))) data Hb Hok Hj Hn Hu)).
Defined.

(** The failure scenario, with status 500 and with a [fetch] that rejects. *)
Lemma failure_keeps_user_message_witness :
  (let r := submitMessage v8_null_read (str " hello ") (Normal server_error) initial in
   exists cause,
     error r.1 = Some cause
     /\ (exists ds,
           cause = str "Server error: " ++ ds
           /\ ds <> []
           /\ forallb Numeral.is_digit ds = true
           /\ Numeral.decimal_value ds = 500%N)
     /\ (cause = [] -> Normal server_error = Throw [])
     /\ conversation r.1 = [{| role := user; content := VString (str "hello") |}]
     /\ List.filter (is_append agent) r.2 = []
     /\ isLoading r.1 = false)
  /\
  (let r := submitMessage v8_null_read (str "hello") (Throw (str "Failed to fetch")) initial in
   exists cause,
     error r.1 = Some cause
     /\ cause = str "Failed to fetch"
     /\ (cause = [] -> Throw (str "Failed to fetch") = Throw (A:=response) [])
     /\ conversation r.1 = [{| role := user; content := VString (str "hello") |}]
     /\ List.filter (is_append agent) r.2 = []
     /\ isLoading r.1 = false).
Proof.
  split.
  - apply (failure_keeps_user_message v8_null_read (str " hello ") initial
             (Normal server_error)); reflexivity.
  - apply (failure_keeps_user_message v8_null_read (str "hello") initial
             (Throw (str "Failed to fetch"))); reflexivity.
Defined.

(** An input with white space around it. *)
Lemma submit_appends_then_fetches_witness :
  blank (str " hello ") = false
  /\ exists st',
      submitMessage_enter (str " hello ") mounted
      = (st', [Append (user_message (str "hello"));
               Fetch (build_request (user_message (str "hello")) mounted)],
         Some AwaitFetch)
      /\ conversation st' = [user_message (str "hello")].
Proof.
  assert (Hb : blank (str " hello ") = false) by reflexivity.
  split; [exact Hb|].
  exact (proj1 (submit_appends_then_fetches v8_null_read (str " hello ") mounted
                  (Normal server_error) Hb)).
Defined.

(** Three spaces. *)
Lemma blank_submit_no_op_witness :
  blank (str "   ") = true
  /\ submitMessage v8_null_read (str "   ") (Normal server_error) mounted = (mounted, []).
Proof.
  assert (Hb : blank (str "   ") = true) by reflexivity.
  split; [exact Hb|].
  exact (proj1 (proj2 (blank_submit_no_op v8_null_read (str "   ") mounted
                         (Normal server_error) (start mounted) Hb))).
Defined.

(** A 2xx response whose body is [null]: the read of [output_data] throws,
    and [isLoading] is reset all the same. *)
Lemma isLoading_scoped_witness :
  blank (str "hello") = false
  /\ isLoading mounted = false
  /\ isLoading (submitMessage_enter (str "hello") mounted).1.1 = true
  /\ isLoading (submitMessage v8_null_read (str "hello")
                  (Normal {| status := 200%N; json := Normal VNull |}) mounted).1 = false.
Proof.
  assert (Hb : blank (str "hello") = false) by reflexivity.
  assert (Hl : isLoading mounted = false) by reflexivity.
  destruct (isLoading_scoped v8_null_read (str "hello") mounted
              (Normal {| status := 200%N; json := Normal VNull |}) [] Hb Hl)
    as ([H1 _] & H2 & _).
  exact (conj Hb (conj Hl (conj H1 H2))).
Defined.

End ControllerExamples.

(** * Further properties *)

(** ** Identity Store *)

Section IdentityMore.
Import Identity.

Lemma read_id_has_window sc key uuid e :
  has_window (read_id sc key uuid e).2 = has_window e.
Proof.
  unfold read_id. destruct (has_window e) eqn:Hw; simpl; [|done].
  destruct (keep_if_short (area sc e !! key)) as [id|]; [|done].
  by destruct (truthy_string id).
Qed.

(** A read touches one key of one area. *)
Lemma read_id_frame sc key uuid e :
  (forall sc', sc <> sc' -> area sc' (read_id sc key uuid e).2 = area sc' e)
  /\ (forall k, k <> key ->
        area sc (read_id sc key uuid e).2 !! k = area sc e !! k).
Proof.
  destruct (has_window e) eqn:Hw; [|by rewrite read_id_no_window].
  destruct (keep_if_short (area sc e !! key)) as [id|] eqn:Hk.
  - rewrite (read_id_kept _ _ _ _ id) by done. cbn [snd].
    split; intros; by rewrite area_getItem.
  - rewrite read_id_regenerated by done. cbn [snd]. split.
    + intros sc' Hne. by rewrite area_setItem_ne, area_getItem.
    + intros k Hne. rewrite area_setItem_eq, lookup_insert_ne by done.
      by rewrite area_getItem.
Qed.

(** After a read in the browser the area holds what the read returned.  The
    read made one [getItem]; it made one [setItem] as well exactly when the
    stored value was not kept. *)
Lemma read_id_stored sc key uuid e :
  has_window e = true ->
  let r := read_id sc key uuid e in
  area sc r.2 !! key = Some r.1
  /\ (journal r.2 = journal e ++ [OpGetItem sc key]
        /\ area sc e !! key = Some r.1
        /\ r.1 <> [] /\ length r.1 <= 32
      \/ journal r.2 = journal e ++ [OpGetItem sc key; OpSetItem sc key r.1]
        /\ keep_if_short (area sc e !! key) = None
        /\ r.1 = fresh_id uuid).
Proof.
  intros Hw. cbv zeta.
  destruct (keep_if_short (area sc e !! key)) as [id|] eqn:Hk.
  - rewrite (read_id_kept _ _ _ _ id) by done. cbn [fst snd].
    apply keep_if_short_Some in Hk as (Hs & Ht & Hl).
    rewrite area_getItem. split; [done|]. left.
    split_and!; [done|done|by destruct id|done].
  - rewrite read_id_regenerated by done. cbn [fst snd].
    rewrite area_setItem_eq, lookup_insert_eq. split; [done|]. right.
    split_and!; [simpl; by rewrite <- app_assoc|done|done].
Qed.

(** What a read returns depends on the environment only through [window]
    and the one stored value. *)
Lemma read_id_depends sc key uuid e e' :
  has_window e = has_window e' ->
  area sc e !! key = area sc e' !! key ->
  (read_id sc key uuid e).1 = (read_id sc key uuid e').1.
Proof.
  intros Hw Hs. unfold read_id. rewrite <- Hw. simpl. rewrite <- Hs.
  destruct (has_window e); simpl; [|done].
  destruct (keep_if_short (area sc e !! key)) as [id|]; [|done].
  by destruct (truthy_string id).
Qed.

End IdentityMore.

Section IdentityExtras.
Import Identity.

(** X1. A read changes nothing but its own key: [getSessionId] leaves
    [localStorage] and every other key of [sessionStorage] as they were,
    [getUserId] leaves [sessionStorage] and every other key of
    [localStorage] as they were. *)
Theorem reads_touch_one_key (uuid k : jsstring) (e : env) :
  (localStorage (getSessionId uuid e).2 = localStorage e
   /\ (k <> str "sessionId" ->
       sessionStorage (getSessionId uuid e).2 !! k = sessionStorage e !! k))
  /\
  (sessionStorage (getUserId uuid e).2 = sessionStorage e
   /\ (k <> str "userId" ->
       localStorage (getUserId uuid e).2 !! k = localStorage e !! k)).
Proof.
  split.
  - destruct (read_id_frame SessionScope (str "sessionId") uuid e) as [H1 H2].
    split; [by apply (H1 LocalScope) | apply H2].
  - destruct (read_id_frame LocalScope (str "userId") uuid e) as [H1 H2].
    split; [by apply (H1 SessionScope) | apply H2].
Qed.

(** X2. In the browser, whatever was stored before, the scope holds the
    returned identifier once the read is over, and the read has made one
    [getItem] followed by at most one [setItem], which wrote the returned
    identifier. *)
Theorem read_leaves_identifier_stored (uuid : jsstring) (e : env) :
  has_window e = true ->
  (let r := getSessionId uuid e in
   sessionStorage r.2 !! str "sessionId" = Some r.1
   /\ (journal r.2 = journal e ++ [OpGetItem SessionScope (str "sessionId")]
       \/ journal r.2 = journal e ++ [OpGetItem SessionScope (str "sessionId");
                                      OpSetItem SessionScope (str "sessionId") r.1]))
  /\
  (let r := getUserId uuid e in
   localStorage r.2 !! str "userId" = Some r.1
   /\ (journal r.2 = journal e ++ [OpGetItem LocalScope (str "userId")]
       \/ journal r.2 = journal e ++ [OpGetItem LocalScope (str "userId");
                                      OpSetItem LocalScope (str "userId") r.1])).
Proof.
  intros Hw. split; cbv zeta.
  - destruct (read_id_stored SessionScope (str "sessionId") uuid e Hw)
      as [H1 [(H2 & _)|(H2 & _)]]; (split; [exact H1|]); [by left|by right].
  - destruct (read_id_stored LocalScope (str "userId") uuid e Hw)
      as [H1 [(H2 & _)|(H2 & _)]]; (split; [exact H1|]); [by left|by right].
Qed.

(** X3. A stored identifier that is non-empty and at most 32 characters
    long is returned as it is, whatever its characters; nothing is written
    and [uuidv4()] plays no part. *)
Theorem stored_identifier_reused (uuid id : jsstring) (e : env) :
  has_window e = true ->
  id <> [] ->
  length id <= 32 ->
  (sessionStorage e !! str "sessionId" = Some id ->
   let r := getSessionId uuid e in
   r.1 = id
   /\ sessionStorage r.2 = sessionStorage e
   /\ localStorage r.2 = localStorage e
   /\ journal r.2 = journal e ++ [OpGetItem SessionScope (str "sessionId")])
  /\
  (localStorage e !! str "userId" = Some id ->
   let r := getUserId uuid e in
   r.1 = id
   /\ sessionStorage r.2 = sessionStorage e
   /\ localStorage r.2 = localStorage e
   /\ journal r.2 = journal e ++ [OpGetItem LocalScope (str "userId")]).
Proof.
  intros Hw Hne Hlen.
  assert (Hkeep : keep_if_short (Some id) = Some id).
  { simpl. destruct id; [done|]. simpl.
    apply Nat.leb_le in Hlen. simpl in Hlen. by rewrite Hlen. }
  split; intros Hs; cbv zeta.
  - unfold getSessionId. rewrite (read_id_kept _ _ _ _ id); [done|done|].
    simpl. by rewrite Hs.
  - unfold getUserId. rewrite (read_id_kept _ _ _ _ id); [done|done|].
    simpl. by rewrite Hs.
Qed.

Lemma must_generate_keep stored :
  must_generate stored = true -> keep_if_short stored = None.
Proof.
  destruct stored as [[|c s]|]; [done| |done].
  unfold must_generate, keep_if_short. cbn [truthy_string andb].
  intros H%Nat.ltb_lt. destruct (Nat.leb_spec (length (c :: s)) 32); [lia|done].
Qed.

Lemma keep_must_generate stored :
  must_generate stored = false -> keep_if_short stored = stored.
Proof.
  destruct stored as [[|c s]|]; [done| |done].
  unfold must_generate, keep_if_short. cbn [truthy_string andb].
  intros H%Nat.ltb_ge. destruct (Nat.leb_spec (length (c :: s)) 32); [done|lia].
Qed.

(** A read that generates, in any area. *)
Lemma read_id_generated_shape sc key uuid e :
  has_window e = true ->
  must_generate (area sc e !! key) = true ->
  let id := (read_id sc key uuid e).1 in
  id = take 32 (List.filter (fun c => negb (N.eqb c 45%N)) uuid)
  /\ forallb (fun c => negb (N.eqb c 45%N)) id = true
  /\ (is_uuid uuid = true -> length id = 32 /\ forallb is_hex id = true)
  /\ journal (read_id sc key uuid e).2
     = journal e ++ [OpGetItem sc key; OpSetItem sc key id].
Proof.
  intros Hw Hg. cbv zeta.
  rewrite read_id_regenerated by (done || by apply must_generate_keep).
  cbn [fst snd]. split_and!.
  - apply fresh_id_filter.
  - unfold fresh_id, slice. apply forallb_take.
    rewrite drop_0. apply replace_hyphens_no_hyphen.
  - intros Hu. split; [by destruct (fresh_id_uuid uuid Hu)|by apply fresh_id_hex].
  - simpl. by rewrite <- app_assoc.
Qed.

(** X4. Whenever a reader generates an identifier, that is whenever
    nothing is stored, or the empty string, or a string longer than 32
    characters, the identifier is the value of [uuidv4()] without its
    hyphens, cut to 32 characters: it never contains a hyphen, and when
    [uuidv4()] returns a UUID it is exactly the UUID's 32 hexadecimal
    digits.  For any other stored value the reader generates nothing and
    writes nothing. *)
Theorem generated_identifier_shape (uuid : jsstring) (e : env) :
  has_window e = true ->
  (if must_generate (sessionStorage e !! str "sessionId") then
     let id := (getSessionId uuid e).1 in
     id = take 32 (List.filter (fun c => negb (N.eqb c 45%N)) uuid)
     /\ forallb (fun c => negb (N.eqb c 45%N)) id = true
     /\ (is_uuid uuid = true -> length id = 32 /\ forallb is_hex id = true)
     /\ journal (getSessionId uuid e).2
        = journal e ++ [OpGetItem SessionScope (str "sessionId");
                        OpSetItem SessionScope (str "sessionId") id]
   else
     sessionStorage e !! str "sessionId" = Some (getSessionId uuid e).1
     /\ journal (getSessionId uuid e).2
        = journal e ++ [OpGetItem SessionScope (str "sessionId")])
  /\
  (if must_generate (localStorage e !! str "userId") then
     let id := (getUserId uuid e).1 in
     id = take 32 (List.filter (fun c => negb (N.eqb c 45%N)) uuid)
     /\ forallb (fun c => negb (N.eqb c 45%N)) id = true
     /\ (is_uuid uuid = true -> length id = 32 /\ forallb is_hex id = true)
     /\ journal (getUserId uuid e).2
        = journal e ++ [OpGetItem LocalScope (str "userId");
                        OpSetItem LocalScope (str "userId") id]
   else
     localStorage e !! str "userId" = Some (getUserId uuid e).1
     /\ journal (getUserId uuid e).2
        = journal e ++ [OpGetItem LocalScope (str "userId")]).
Proof.
  intros Hw.
  assert (Hkept : forall sc key,
            must_generate (area sc e !! key) = false ->
            area sc e !! key = Some (read_id sc key uuid e).1
            /\ journal (read_id sc key uuid e).2 = journal e ++ [OpGetItem sc key]).
  { intros sc key Hg. pose proof (keep_must_generate _ Hg) as Hk.
    destruct (area sc e !! key) as [id|] eqn:Hs; [|done].
    by rewrite (read_id_kept _ _ _ _ id) by (done || by rewrite Hs). }
  split.
  - destruct (must_generate (sessionStorage e !! str "sessionId")) eqn:Hg.
    + by apply (read_id_generated_shape SessionScope).
    + by apply (Hkept SessionScope).
  - destruct (must_generate (localStorage e !! str "userId")) eqn:Hg.
    + by apply (read_id_generated_shape LocalScope).
    + by apply (Hkept LocalScope).
Qed.

(** A second read finds an identifier that a first read returned. *)
Lemma read_id_again sc key uuid uuid' e e' :
  has_window e = true ->
  is_uuid uuid = true ->
  has_window e' = true ->
  area sc e' !! key = Some (read_id sc key uuid e).1 ->
  read_id sc key uuid' e' = ((read_id sc key uuid e).1, (getItem sc key e').2).
Proof.
  intros Hw Hu Hw' Hs.
  destruct (read_id_client sc key uuid e Hw Hu) as (Hne & Hlen & _).
  apply read_id_kept; [done|]. rewrite Hs. simpl.
  destruct (read_id sc key uuid e).1 as [|c id]; [done|]. simpl.
  apply Nat.leb_le in Hlen. simpl in Hlen. by rewrite Hlen.
Qed.

Lemma mount_state uuid1 uuid2 e :
  (Controller.mount uuid1 uuid2 e).1
  = Controller.setUserId (getUserId uuid2 (getSessionId uuid1 e).2).1
      (Controller.setSessionId (getSessionId uuid1 e).1 Controller.initial).
Proof.
  unfold Controller.mount. destruct (getSessionId uuid1 e) as [sid e1]. simpl.
  by destruct (getUserId uuid2 e1).
Qed.

Lemma mount_env uuid1 uuid2 e :
  (Controller.mount uuid1 uuid2 e).2 = (getUserId uuid2 (getSessionId uuid1 e).2).2.
Proof.
  unfold Controller.mount. destruct (getSessionId uuid1 e) as [sid e1]. simpl.
  by destruct (getUserId uuid2 e1).
Qed.

(** What the storage holds after a mount in the browser. *)
Lemma mount_stored uuid1 uuid2 e :
  has_window e = true ->
  let r := Controller.mount uuid1 uuid2 e in
  has_window r.2 = true
  /\ sessionStorage r.2 !! str "sessionId" = Some (Controller.sessionId r.1)
  /\ localStorage r.2 !! str "userId" = Some (Controller.userId r.1).
Proof.
  intros Hw. cbv zeta. rewrite mount_state, mount_env. simpl.
  pose proof (read_id_has_window SessionScope (str "sessionId") uuid1 e) as Hw1.
  rewrite Hw in Hw1. fold (getSessionId uuid1 e) in Hw1.
  destruct (read_id_stored SessionScope (str "sessionId") uuid1 e Hw) as [Hs _].
  destruct (read_id_stored LocalScope (str "userId") uuid2 _ Hw1) as [Hl _].
  destruct (read_id_frame LocalScope (str "userId") uuid2 (getSessionId uuid1 e).2)
    as [Hframe _].
  pose proof (Hframe SessionScope ltac:(done)) as Hf.
  cbn [area] in Hs, Hl, Hf.
  split_and!.
  - unfold getUserId. by rewrite read_id_has_window.
  - unfold getUserId. rewrite Hf. exact Hs.
  - exact Hl.
Qed.

(** X5. Mounting the component in the browser leaves in its two
    identifier cells exactly what the two storage areas then hold under
    [sessionId] and [userId]: two non-empty identifiers of at most 32
    characters.  The other cells have their initial values. *)
Theorem mount_identifiers (uuid1 uuid2 : jsstring) (e : env) :
  has_window e = true ->
  is_uuid uuid1 = true ->
  is_uuid uuid2 = true ->
  let r := Controller.mount uuid1 uuid2 e in
  sessionStorage r.2 !! str "sessionId" = Some (Controller.sessionId r.1)
  /\ localStorage r.2 !! str "userId" = Some (Controller.userId r.1)
  /\ Controller.sessionId r.1 <> [] /\ length (Controller.sessionId r.1) <= 32
  /\ Controller.userId r.1 <> [] /\ length (Controller.userId r.1) <= 32
  /\ Controller.conversation r.1 = []
  /\ Controller.isLoading r.1 = false
  /\ Controller.error r.1 = None.
Proof.
  intros Hw Hu1 Hu2. cbv zeta.
  destruct (mount_stored uuid1 uuid2 e Hw) as (_ & Hs & Hl).
  split; [exact Hs|]. split; [exact Hl|].
  rewrite mount_state. simpl.
  pose proof (read_id_has_window SessionScope (str "sessionId") uuid1 e) as Hw1.
  rewrite Hw in Hw1. fold (getSessionId uuid1 e) in Hw1.
  destruct (read_id_client SessionScope (str "sessionId") uuid1 e Hw Hu1) as (Hn1 & Hl1 & _).
  destruct (read_id_client LocalScope (str "userId") uuid2 _ Hw1 Hu2) as (Hn2 & Hl2 & _).
  done.
Qed.

(** X6. Mounting again on the storage a first mount left (a reload in the
    same tab) gives the same two identifiers and writes nothing. *)
Theorem reload_keeps_identifiers (uuid1 uuid2 uuid3 uuid4 : jsstring) (e : env) :
  has_window e = true ->
  is_uuid uuid1 = true ->
  is_uuid uuid2 = true ->
  let r1 := Controller.mount uuid1 uuid2 e in
  let r2 := Controller.mount uuid3 uuid4 r1.2 in
  Controller.sessionId r2.1 = Controller.sessionId r1.1
  /\ Controller.userId r2.1 = Controller.userId r1.1
  /\ sessionStorage r2.2 = sessionStorage r1.2
  /\ localStorage r2.2 = localStorage r1.2.
Proof.
  intros Hw Hu1 Hu2. cbv zeta.
  destruct (mount_stored uuid1 uuid2 e Hw) as (Hw2 & Hs & Hl).
  set (e2 := (Controller.mount uuid1 uuid2 e).2) in *.
  assert (Hw1 : has_window (getSessionId uuid1 e).2 = true).
  { unfold getSessionId. by rewrite read_id_has_window. }
  rewrite (mount_state uuid1 uuid2 e) in Hs, Hl |- *. simpl in Hs, Hl.
  rewrite (mount_state uuid3 uuid4 e2), (mount_env uuid3 uuid4 e2). simpl.
  assert (H3 : getSessionId uuid3 e2
               = ((getSessionId uuid1 e).1, (getItem SessionScope (str "sessionId") e2).2)).
  { apply (read_id_again SessionScope (str "sessionId") uuid1 uuid3 e e2); done. }
  rewrite H3. cbn [fst snd].
  assert (H4 : getUserId uuid4 (getItem SessionScope (str "sessionId") e2).2
               = ((getUserId uuid2 (getSessionId uuid1 e).2).1,
                  (getItem LocalScope (str "userId")
                     (getItem SessionScope (str "sessionId") e2).2).2)).
  { apply (read_id_again LocalScope (str "userId") uuid2 uuid4); done. }
  rewrite H4. done.
Qed.


End IdentityExtras.

(** ** Trimming *)

Section TrimFacts.

Lemma trimStart_head (s : jsstring) (c : N) (r : jsstring) :
  trimStart s = c :: r -> is_white_space c = false.
Proof.
  induction s as [|x s IH]; simpl; [done|].
  destruct (is_white_space x) eqn:Hx; [done|]. by intros [= <- _].
Qed.

Lemma trimStart_split s :
  exists pre, s = pre ++ trimStart s /\ blank pre = true.
Proof.
  induction s as [|x s (pre & Hs & Hb)]; simpl; [by exists []|].
  destruct (is_white_space x) eqn:Hx.
  - exists (x :: pre). simpl. rewrite Hx, Hb. by rewrite <- Hs.
  - by exists [].
Qed.

Lemma trimEnd_split s :
  exists suf, s = trimEnd s ++ suf /\ blank suf = true.
Proof.
  induction s as [|x s (suf & Hs & Hb)]; simpl; [by exists []|].
  destruct (trimEnd s) as [|y r] eqn:Ht.
  - destruct (is_white_space x) eqn:Hx.
    + exists (x :: suf). simpl in *. rewrite Hx, Hb. by rewrite Hs.
    + exists suf. simpl in *. by rewrite Hs.
  - exists suf. split; [|done]. simpl in *. congruence.
Qed.

Lemma trimEnd_last s c :
  last (trimEnd s) = Some c -> is_white_space c = false.
Proof.
  induction s as [|x s IH]; simpl; [done|].
  destruct (trimEnd s) as [|y r] eqn:Ht.
  - destruct (is_white_space x) eqn:Hx; simpl; [done|]. by intros [= <-].
  - simpl. exact IH.
Qed.

Lemma trimEnd_head (c : N) (s : jsstring) :
  is_white_space c = false -> exists r : jsstring, trimEnd (c :: s) = c :: r.
Proof.
  intros Hc. simpl. rewrite Hc. destruct (trimEnd s); eauto.
Qed.

Lemma trimEnd_idem s : trimEnd (trimEnd s) = trimEnd s.
Proof.
  induction s as [|x s IH]; simpl; [done|].
  destruct (trimEnd s) as [|y r] eqn:Ht.
  - destruct (is_white_space x) eqn:Hx; simpl; [done|]. by rewrite Hx.
  - change (trimEnd (x :: y :: r) = x :: y :: r).
    cbn [trimEnd] in IH |- *. by rewrite IH.
Qed.

Lemma trim_idem s : trim (trim s) = trim s.
Proof.
  unfold trim. destruct (trimStart s) as [|c r] eqn:Hs; [done|].
  pose proof (trimStart_head _ _ _ Hs) as Hc.
  destruct (trimEnd_head c r Hc) as [r' Hr].
  pose proof (trimEnd_idem (c :: r)) as Hi. rewrite Hr in Hi |- *.
  cbn [trimStart]. by rewrite Hc.
Qed.

(** What [trim] returns: the input without a run of white space at each
    end, neither starting nor ending with white space. *)
Lemma trim_spec s :
  (exists pre suf, s = pre ++ trim s ++ suf /\ blank pre = true /\ blank suf = true)
  /\ (forall c, head (trim s) = Some c -> is_white_space c = false)
  /\ (forall c, last (trim s) = Some c -> is_white_space c = false).
Proof.
  unfold trim. split_and!.
  - destruct (trimStart_split s) as (pre & Hs & Hp).
    destruct (trimEnd_split (trimStart s)) as (suf & Ht & Hf).
    exists pre, suf. split_and!; [|done|done]. by rewrite <- Ht.
  - intros c Hc. destruct (trimStart s) as [|x r] eqn:Hs; [done|].
    pose proof (trimStart_head _ _ _ Hs) as Hx.
    destruct (trimEnd_head x r Hx) as [r' Hr]. rewrite Hr in Hc.
    simpl in Hc. by injection Hc as <-.
  - intros c. apply trimEnd_last.
Qed.

End TrimFacts.

(** ** One invocation of [submitMessage] *)

Section InvocationExtras.
Import Controller.

Variable null_read_message : jsstring.

(** Whatever [agentReply] returns is truthy. *)
Lemma agentReply_truthy data reply :
  agentReply null_read_message data = Normal reply -> truthy reply = true.
Proof.
  unfold agentReply.
  destruct (get null_read_message data (str "output_data")) as [od|m]; [|done].
  destruct (truthy od) eqn:Hod; [|by intros [= <-]].
  destruct (get null_read_message od (str "content")) as [c|m]; [|done].
  destruct (truthy c) eqn:Hc; [|by intros [= <-]].
  intros [= <-]. done.
Qed.

(** [agentReply] throws on [null] and [undefined] only. *)
Lemma agentReply_throws data m :
  agentReply null_read_message data = Throw m ->
  (data = VNull \/ data = VUndefined) /\ m = null_read_message.
Proof.
  unfold agentReply. destruct data as [| |b|n|s|items|fields]; simpl;
    try (intros [= <-]; by eauto); try done.
  destruct (own_property (str "output_data") fields) as [| |b|n|s|items|fields'];
    simpl; try done.
  - by destruct b.
  - by destruct n.
  - by destruct s.
  - by destruct (truthy (own_property (str "content") fields')).
Qed.

(** X8. The user Message of a validated submission carries the input
    without the white space at its two ends and otherwise unchanged: its
    content is non-empty, neither starts nor ends with white space, and
    submitting that content again gives the same content. *)
Theorem user_message_is_trimmed_input (userInput : jsstring) (st : state) :
  blank userInput = false ->
  exists t pre suf,
    (submitMessage_enter userInput st).1.2
    = [Append {| role := user; content := VString t |};
       Fetch (build_request {| role := user; content := VString t |} st)]
    /\ userInput = pre ++ t ++ suf
    /\ blank pre = true /\ blank suf = true
    /\ t <> []
    /\ (forall c, head t = Some c -> is_white_space c = false)
    /\ (forall c, last t = Some c -> is_white_space c = false)
    /\ trim t = t.
Proof.
  intros Hb. destruct (trim_spec userInput) as ((pre & suf & Hs & Hp & Hf) & Hh & Hl).
  exists (trim userInput), pre, suf.
  rewrite enter_valid by done. simpl.
  split_and!; try done.
  - pose proof (trim_truthy userInput) as Ht. rewrite Hb in Ht.
    by destruct (trim userInput).
  - apply trim_idem.
Qed.

(** X9. The content of an agent Message is always truthy: never the empty
    string, [null], [undefined], zero or [false]. *)
Theorem agent_message_truthy
    (userInput : jsstring) (net : completion response) (st : state) (m : Message) :
  In (Append m) (submitMessage null_read_message userInput net st).2 ->
  role m = agent ->
  truthy (content m) = true.
Proof.
  destruct (blank userInput) eqn:Hb.
  { by rewrite submitMessage_blank. }
  destruct (submitMessage_cases null_read_message net)
    as [Hf | [(res & e & -> & Hok & Hj) | (res & data & reply & -> & Hok & Hj & Hr)]].
  - rewrite submitMessage_failed by done. simpl.
    intros [[= <-]|[|[|[]]]]; done.
  - rewrite (submitMessage_thrown _ _ _ e) by done. simpl.
    intros [[= <-]|[|[|[]]]]; done.
  - rewrite (submitMessage_replied _ _ _ data reply) by done. simpl.
    intros [[= <-]|[|[[= <-]|[]]]]; try done.
    intros _. simpl. by apply agentReply_truthy in Hr.
Qed.

(** X11. A 2xx response is not enough for an answer.  When [res.json()]
    rejects, or when the body is the JSON value [null], the submission ends
    as a failure: no agent Message, and [error] is the message of the
    rejection, or of the engine's TypeError for the read of
    [output_data]. *)
Theorem unusable_body_is_a_failure
    (userInput : jsstring) (res : response) (st : state) :
  blank userInput = false ->
  ok res = true ->
  (forall m, json res = Throw m ->
     let r := submitMessage null_read_message userInput (Normal res) st in
     error r.1 = Some m
     /\ conversation r.1 = conversation st ++ [user_message userInput]
     /\ isLoading r.1 = false)
  /\ (json res = Normal VNull ->
     let r := submitMessage null_read_message userInput (Normal res) st in
     error r.1 = Some null_read_message
     /\ conversation r.1 = conversation st ++ [user_message userInput]
     /\ isLoading r.1 = false).
Proof.
  intros Hb Hok. split.
  - intros m Hj. cbv zeta.
    rewrite (submitMessage_thrown _ _ _ m), enter_valid; [done|done|done|done|].
    by rewrite Hj.
  - intros Hj. cbv zeta.
    rewrite (submitMessage_thrown _ _ _ null_read_message), enter_valid;
      [done|done|done|done|].
    by rewrite Hj.
Qed.

(** X12. The error text of a response that is not 2xx determines its
    status: two such failures that leave the same [error] had the same
    status. *)
Theorem error_text_determines_status
    (userInput userInput' : jsstring) (res res' : response) (st st' : state) :
  blank userInput = false ->
  blank userInput' = false ->
  ok res = false ->
  ok res' = false ->
  error (submitMessage null_read_message userInput (Normal res) st).1
  = error (submitMessage null_read_message userInput' (Normal res') st').1 ->
  status res = status res'.
Proof.
  intros Hb Hb' Hok Hok'.
  rewrite !submitMessage_failed by (done || (simpl; by rewrite ?Hok, ?Hok')).
  simpl. intros [= H]. by apply number_to_string_inj.
Qed.

End InvocationExtras.

(** ** Runs: what every step does *)

Section RunFacts.
Import Controller Trace.

Variable null_read_message : jsstring.

(** The five things a step can be: nothing, the start of a validated
    submission, a suspension at [res.json()], a failure, an answer. *)
Lemma step_cases w i :
  (validated i = false /\ step null_read_message w i = w)
  \/ (exists userInput,
        i = Submit userInput /\ validated i = true
        /\ step null_read_message w i
           = {| ui := setIsLoading true
                        (setConversation (fun prev => prev ++ [user_message userInput])
                           (setError None (setMessage [] (ui w))));
                suspended := <[next w := AwaitFetch]> (suspended w);
                next := S (next w);
                trace := trace w
                         ++ [Did (next w) (Append (user_message userInput));
                             Did (next w)
                               (Fetch (build_request (user_message userInput) (ui w)))] |})
  \/ (exists id p,
        validated i = false /\ is_Some (suspended w !! id)
        /\ step null_read_message w i
           = {| ui := ui w;
                suspended := <[id := AwaitJson p]> (suspended w);
                next := next w;
                trace := trace w ++ [] |})
  \/ (exists id m,
        validated i = false /\ is_Some (suspended w !! id)
        /\ step null_read_message w i
           = {| ui := setIsLoading false (setError (Some m) (ui w));
                suspended := delete id (suspended w);
                next := next w;
                trace := trace w ++ [Did id (ConsoleError m); Resolved id] |})
  \/ (exists id reply,
        validated i = false /\ is_Some (suspended w !! id)
        /\ truthy reply = true
        /\ step null_read_message w i
           = {| ui := setIsLoading false
                        (setMessage []
                           (setConversation
                              (fun prev => prev ++ [{| role := agent; content := reply |}])
                              (ui w)));
                suspended := delete id (suspended w);
                next := next w;
                trace := trace w
                         ++ [Did id (Append {| role := agent; content := reply |});
                             Resolved id] |}).
Proof.
  destruct i as [userInput|id r|id]; simpl.
  - unfold call. destruct (blank userInput) eqn:Hb.
    + left. by rewrite enter_blank.
    + right. left. exists userInput. by rewrite enter_valid.
  - destruct (suspended w !! id) as [[|p]|] eqn:Hk; [|by left|by left].
    unfold submitMessage_after_fetch, catch_finally.
    destruct r as [res|m].
    + destruct (ok res); simpl.
      * right. right. left. exists id, (json res). by rewrite Hk.
      * right. right. right. left. eexists id, _. by rewrite Hk.
    + right. right. right. left. exists id, m. by rewrite Hk.
  - destruct (suspended w !! id) as [[|p]|] eqn:Hk; [by left| |by left].
    unfold submitMessage_after_json, catch_finally.
    destruct p as [data|m].
    + destruct (agentReply null_read_message data) as [reply|m] eqn:Hr.
      * right. right. right. right. exists id, reply. rewrite Hk.
        split_and!; [done|done| |done]. by apply agentReply_truthy in Hr.
      * right. right. right. left. exists id, m. by rewrite Hk.
    + right. right. right. left. exists id, m. by rewrite Hk.
Qed.

(** A property that every step keeps holds along every run. *)
Lemma run_keeps (P : world -> Prop) :
  (forall w i, P w -> P (step null_read_message w i)) ->
  forall inputs w, P w -> P (run null_read_message w inputs).
Proof.
  intros Hstep inputs. induction inputs as [|i inputs IH]; intros w Hw; [done|].
  simpl. apply IH. by apply Hstep.
Qed.

Lemma appended_app t1 t2 : appended (t1 ++ t2) = appended t1 ++ appended t2.
Proof.
  induction t1 as [|[id [m|r|m]|id] t1 IH]; simpl; by rewrite ?IH.
Qed.

Lemma requests_app t1 t2 : requests (t1 ++ t2) = requests t1 ++ requests t2.
Proof.
  induction t1 as [|[id [m|r|m]|id] t1 IH]; simpl; by rewrite ?IH.
Qed.

Lemma count_role_app r ms1 ms2 :
  count_role r (ms1 ++ ms2) = count_role r ms1 + count_role r ms2.
Proof. unfold count_role. by rewrite List.filter_app, length_app. Qed.

(** The conversation and the trace grow together. *)
Lemma step_grows w i :
  exists t,
    trace (step null_read_message w i) = trace w ++ t
    /\ conversation (ui (step null_read_message w i))
       = conversation (ui w) ++ appended t
    /\ length (requests t) = (if validated i then 1 else 0)
    /\ count_role user (appended t) = (if validated i then 1 else 0)
    /\ sessionId (ui (step null_read_message w i)) = sessionId (ui w)
    /\ userId (ui (step null_read_message w i)) = userId (ui w)
    /\ Forall (addressed (ui w)) (requests t).
Proof.
  destruct (step_cases w i)
    as [[Hv ->]
       |[(u & -> & Hv & ->)
        |[(id & p & Hv & _ & ->)
         |[(id & m & Hv & _ & ->)
          |(id & reply & Hv & _ & _ & ->)]]]]; rewrite ?Hv; simpl.
  - exists []. rewrite !app_nil_r. by split_and!.
  - eexists. split; [reflexivity|]. simpl. split_and!; try done.
    apply Forall_cons. split; [|done]. by repeat split.
  - exists []. simpl. rewrite ?app_nil_r. by split_and!.
  - eexists. split; [reflexivity|]. simpl. rewrite ?app_nil_r. by split_and!.
  - eexists. split; [reflexivity|]. simpl. by split_and!.
Qed.

Lemma addressed_same st st' r :
  sessionId st = sessionId st' -> userId st = userId st' ->
  addressed st r -> addressed st' r.
Proof. unfold addressed. by intros <- <-. Qed.

Lemma run_grows inputs w :
  exists t,
    trace (run null_read_message w inputs) = trace w ++ t
    /\ conversation (ui (run null_read_message w inputs))
       = conversation (ui w) ++ appended t
    /\ length (requests t) = length (List.filter validated inputs)
    /\ count_role user (appended t) = length (List.filter validated inputs)
    /\ sessionId (ui (run null_read_message w inputs)) = sessionId (ui w)
    /\ userId (ui (run null_read_message w inputs)) = userId (ui w)
    /\ Forall (addressed (ui w)) (requests t).
Proof.
  revert w. induction inputs as [|i inputs IH]; intros w.
  - exists []. simpl. rewrite !app_nil_r. by split_and!.
  - simpl. destruct (step_grows w i) as (t1 & Ht1 & Hc1 & Hr1 & Hu1 & Hs1 & Hi1 & Ha1).
    destruct (IH (step null_read_message w i))
      as (t2 & Ht2 & Hc2 & Hr2 & Hu2 & Hs2 & Hi2 & Ha2).
    exists (t1 ++ t2).
    rewrite Ht2, Ht1, Hc2, Hc1, Hs2, Hs1, Hi2, Hi1.
    rewrite appended_app, requests_app, count_role_app, length_app, !app_assoc.
    rewrite Hr1, Hr2, Hu1, Hu2.
    split_and!; try done.
    + by destruct (validated i).
    + by destruct (validated i).
    + apply Forall_app. split; [done|].
      eapply Forall_impl; [exact Ha2|].
      intros r. by apply addressed_same.
Qed.

(** Every answer shown and every request in flight has its user Message. *)
Lemma step_answers w i :
  count_role agent (conversation (ui w)) + size (suspended w)
    <= count_role user (conversation (ui w)) ->
  count_role agent (conversation (ui (step null_read_message w i)))
    + size (suspended (step null_read_message w i))
    <= count_role user (conversation (ui (step null_read_message w i))).
Proof.
  intros Hinv.
  destruct (step_cases w i)
    as [[Hv ->]
       |[(u & -> & Hv & ->)
        |[(id & p & Hv & [k Hk] & ->)
         |[(id & m & Hv & [k Hk] & ->)
          |(id & reply & Hv & [k Hk] & _ & ->)]]]]; simpl; try done.
  - rewrite !count_role_app. unfold count_role at 2 4. simpl.
    rewrite map_size_insert. destruct (suspended w !! next w); simpl; unfold id; lia.
  - rewrite map_size_insert, Hk. done.
  - rewrite map_size_delete, Hk. simpl. lia.
  - rewrite !count_role_app. unfold count_role at 2 4. simpl.
    rewrite map_size_delete, Hk. simpl.
    assert (0 < size (suspended w)); [|lia].
    destruct (size (suspended w)) eqn:Hsz; [|lia].
    apply map_size_empty_inv in Hsz. rewrite Hsz in Hk.
    by apply lookup_empty_Some in Hk.
Qed.

(** The step that ends an invocation is an answer or a failure. *)
Lemma ending_step w i id :
  is_Some (suspended w !! id) ->
  suspended (step null_read_message w i) !! id = None ->
  (exists reply,
      truthy reply = true
      /\ ui (step null_read_message w i)
         = setIsLoading false
             (setMessage []
                (setConversation
                   (fun prev => prev ++ [{| role := agent; content := reply |}])
                   (ui w))))
  \/ (exists m,
        ui (step null_read_message w i)
        = setIsLoading false (setError (Some m) (ui w))).
Proof.
  intros [k Hk] Hgone.
  destruct (step_cases w i)
    as [[Hv Hs]
       |[(u & -> & Hv & Hs)
        |[(id' & p & Hv & _ & Hs)
         |[(id' & m & Hv & _ & Hs)
          |(id' & reply & Hv & _ & Ht & Hs)]]]]; rewrite Hs in Hgone |- *; simpl in *.
  - congruence.
  - destruct (decide (next w = id)) as [Heq|Hne].
    + by rewrite Heq, lookup_insert_eq in Hgone.
    + rewrite lookup_insert_ne in Hgone by done. congruence.
  - destruct (decide (id' = id)) as [Heq|Hne].
    + by rewrite Heq, lookup_insert_eq in Hgone.
    + rewrite lookup_insert_ne in Hgone by done. congruence.
  - right. by exists m.
  - left. by exists reply.
Qed.

End RunFacts.

Section RunExtras.
Import Controller Trace.

Variable null_read_message : jsstring.

(** X13. The conversation is append-only.  Whatever the event loop
    delivers, the conversation after a run is the conversation before it
    followed by the Messages appended during the run, in the order of their
    appends; nothing is removed, edited or reordered. *)
Theorem conversation_append_only (w : world) (inputs : list input) :
  exists t,
    trace (run null_read_message w inputs) = trace w ++ t
    /\ conversation (ui (run null_read_message w inputs))
       = conversation (ui w) ++ appended t.
Proof.
  destruct (run_grows null_read_message inputs w) as (t & Ht & Hc & _).
  by exists t.
Qed.

(** X14. The two identifier cells never change after the mount, and every
    request issued during a run is a POST to [/api/proxy] with the JSON
    content type that carries those two identifiers, [stateful: true],
    [stream: false] and [verbose: false]. *)
Theorem requests_carry_identifiers (st : state) (inputs : list input) :
  let w := run null_read_message (start st) inputs in
  sessionId (ui w) = sessionId st
  /\ userId (ui w) = userId st
  /\ Forall (addressed st) (requests (trace w)).
Proof.
  cbv zeta.
  destruct (run_grows null_read_message inputs (start st))
    as (t & Ht & _ & _ & _ & Hs & Hu & Ha).
  rewrite Ht. by split_and!.
Qed.

(** X15. One request per validated call and no retry: the number of
    requests issued during a run, and the number of user Messages appended,
    both equal the number of calls of [submitMessage] with a non-blank
    input, however those calls ended. *)
Theorem one_request_per_validated_call (st : state) (inputs : list input) :
  let w := run null_read_message (start st) inputs in
  length (requests (trace w)) = length (List.filter validated inputs)
  /\ count_role user (appended (trace w)) = length (List.filter validated inputs).
Proof.
  cbv zeta.
  destruct (run_grows null_read_message inputs (start st))
    as (t & Ht & _ & Hr & Hu & _).
  rewrite Ht. by split.
Qed.

(** X16. Starting from an empty conversation, at every moment of every
    run each agent Message and each submission still in flight has its own
    user Message in the conversation: the agent Messages plus the
    invocations in flight never outnumber the user Messages. *)
Theorem answers_have_questions (st : state) (inputs : list input) :
  conversation st = [] ->
  let w := run null_read_message (start st) inputs in
  count_role agent (conversation (ui w)) + size (suspended w)
    <= count_role user (conversation (ui w)).
Proof.
  intros Hc. cbv zeta.
  apply (run_keeps null_read_message
           (fun w => count_role agent (conversation (ui w)) + size (suspended w)
                       <= count_role user (conversation (ui w)))).
  - intros w i. apply step_answers.
  - simpl. rewrite Hc. by rewrite map_size_empty.
Qed.

(** X17. In a run in which every call of [submitMessage] is made at a
    moment when [isLoading] is false (a condition on the callers, see
    [guarded]), [isLoading] is true exactly while a submission is in
    flight, and then exactly one is. *)
Theorem loading_iff_in_flight (st : state) (inputs : list input) :
  isLoading st = false ->
  guarded null_read_message (start st) inputs = true ->
  let w := run null_read_message (start st) inputs in
  (isLoading (ui w) = true <-> suspended w <> ∅)
  /\ (isLoading (ui w) = true <-> size (suspended w) = 1).
Proof.
  intros Hl Hg. cbv zeta.
  pose proof (one_at_a_time_run null_read_message inputs (start st)
                (one_at_a_time_start st Hl) Hg) as Hone.
  assert (Hin : loading_in_flight (run null_read_message (start st) inputs)).
  { apply loading_in_flight_run. unfold loading_in_flight. simpl. congruence. }
  destruct (one_at_a_time_size _ Hone) as [Hsize _].
  destruct Hone as [Hidle _]. unfold loading_in_flight in Hin.
  set (w := run null_read_message (start st) inputs) in *.
  assert (Hiff : isLoading (ui w) = true <-> suspended w <> ∅).
  { split; [exact Hin|]. intros Hne.
    destruct (isLoading (ui w)); [done|]. by destruct Hne; apply Hidle. }
  split; [exact Hiff|]. rewrite Hiff. split.
  - intros Hne. destruct (size (suspended w)) as [|[|n]] eqn:Hsz; [|done|lia].
    by apply map_size_empty_inv in Hsz.
  - intros Hsz He. by rewrite He, map_size_empty in Hsz.
Qed.


(** X20. The buttons after the step that ends a submission.  The
    suggestion button is enabled.  After an answer the submit button is
    disabled, because the input cell was emptied; after a failure it is
    enabled exactly when the input cell holds text that is not blank,
    typed while the submission was in flight.  From then on typing enables
    it exactly when the text typed is not blank. *)
Theorem buttons_after_submission
    (w : world) (i : input) (id : nat) (text : jsstring) :
  is_Some (suspended w !! id) ->
  suspended (step null_read_message w i) !! id = None ->
  let st := ui w in
  let st' := ui (step null_read_message w i) in
  View.prompt_disabled st' = false
  /\ ((exists reply,
         conversation st' = conversation st ++ [{| role := agent; content := reply |}])
      /\ View.submit_disabled st' = true
      \/ conversation st' = conversation st
         /\ (exists cause, error st' = Some cause)
         /\ View.submit_disabled st' = blank (message st))
  /\ View.submit_disabled (View.onChange text st') = blank text.
Proof.
  intros Hin Hgone. cbv zeta.
  unfold View.prompt_disabled, View.submit_disabled, View.onChange.
  destruct (ending_step null_read_message w i id Hin Hgone)
    as [(reply & Ht & ->)|(m & ->)]; simpl;
    rewrite !trim_truthy, !negb_involutive.
  - split_and!; [done|left; eauto|done].
  - split_and!; [done|right; eauto|done].
Qed.

(** X26. The suggestion button does not keep submissions apart.  Its
    [disabled={isLoading}] is tested at the click, and [handlePromptClick]
    only sets the input cell and a timer; [isLoading] becomes true when the
    timer fires.  So two clicks made before the first timer fires are both
    accepted, and when the two timers have fired two submissions are in
    flight and the second user Message has been appended before the first
    submission has resolved. *)
Theorem deferred_prompt_clicks_overlap (st : state) (prompt1 prompt2 : jsstring) :
  isLoading st = false ->
  blank prompt1 = false ->
  blank prompt2 = false ->
  let p1 := Page.click_prompt prompt1 (Page.loaded st) in
  let p2 := Page.click_prompt prompt2 p1 in
  let p4 := Page.timer_fires (Page.timer_fires p2) in
  View.prompt_disabled (ui (Page.component (Page.loaded st))) = false
  /\ View.prompt_disabled (ui (Page.component p1)) = false
  /\ Page.timers p2 = [prompt1; prompt2]
  /\ Page.timers p4 = []
  /\ suspended (Page.component p4) !! 0 = Some AwaitFetch
  /\ suspended (Page.component p4) !! 1 = Some AwaitFetch
  /\ conversation (ui (Page.component p4))
     = conversation st ++ [user_message prompt1; user_message prompt2]
  /\ serial (trace (Page.component p4)) = false.
Proof.
  intros Hl Hb1 Hb2. cbv zeta.
  unfold Page.click_prompt, Page.loaded, View.prompt_disabled. simpl. rewrite Hl.
  simpl. rewrite Hl.
  unfold Page.timer_fires, Page.handlePromptClick. simpl.
  unfold call. simpl. rewrite !enter_valid by done. simpl.
  split_and!; try done.
  by rewrite <- app_assoc.
Qed.

End RunExtras.

(** ** Presentation logic *)

Section ViewExtras.
Import Controller View.

Variable null_read_message : jsstring.

(** X18. The error line.  It is hidden as soon as a validated submission
    starts, whatever it showed; it is shown after a response that is not
    2xx; after a transport failure it is shown unless the rejection's
    message is empty, in which case [error] is set and nothing is
    rendered. *)
Theorem error_line (userInput : jsstring) (st : state) :
  blank userInput = false ->
  error_shown (submitMessage_enter userInput st).1.1 = false
  /\ (forall res, ok res = false ->
        error_shown (submitMessage null_read_message userInput (Normal res) st).1 = true)
  /\ (forall m,
        error_shown (submitMessage null_read_message userInput (Throw m) st).1
        = truthy_string m).
Proof.
  intros Hb. split_and!.
  - by rewrite enter_valid.
  - intros res Hok.
    rewrite submitMessage_failed by (done || (simpl; by rewrite Hok)). done.
  - intros m. by rewrite submitMessage_failed.
Qed.

(** X19. The submit button and the guard of [submitMessage] agree.  When
    the button is enabled, [handleSubmit] starts a submission of the input
    cell's text: the trimmed text is appended, the cell is emptied, the
    invocation is suspended at its [fetch], and both buttons are disabled.
    When the button is disabled only because the text is blank,
    [handleSubmit] does nothing. *)
Theorem submit_button_agrees_with_guard (w : world) :
  (submit_disabled (ui w) = false ->
   let w' := handleSubmit w in
   conversation (ui w') = conversation (ui w) ++ [user_message (message (ui w))]
   /\ message (ui w') = []
   /\ suspended w' !! next w = Some AwaitFetch
   /\ submit_disabled (ui w') = true
   /\ prompt_disabled (ui w') = true)
  /\ (isLoading (ui w) = false -> submit_disabled (ui w) = true ->
      handleSubmit w = w).
Proof.
  unfold submit_disabled, handleSubmit, call. split.
  - intros [_ Hb]%orb_false_iff. rewrite trim_truthy, negb_involutive in Hb.
    cbv zeta. rewrite enter_valid by done. simpl.
    by rewrite lookup_insert_eq.
  - intros -> Hb. simpl in Hb. rewrite trim_truthy, negb_involutive in Hb.
    by rewrite enter_blank.
Qed.

Lemma container_height_cases st :
  (length (conversation st) = 0
   /\ getContainerHeight st = str "auto" /\ getChatAreaHeight st = str "0px"
   /\ chat_visible st = false)
  \/ (1 <= length (conversation st) <= 2
      /\ getContainerHeight st = str "150px" /\ getChatAreaHeight st = str "80px"
      /\ chat_visible st = true)
  \/ (3 <= length (conversation st)
      /\ getContainerHeight st = str "300px" /\ getChatAreaHeight st = str "180px"
      /\ chat_visible st = true).
Proof.
  unfold getContainerHeight, getChatAreaHeight, chat_visible.
  destruct (length (conversation st)) as [|[|[|n]]]; simpl.
  - by left.
  - right. left. split_and!; (lia || done).
  - right. left. split_and!; (lia || done).
  - right. right. split_and!; (lia || done).
Qed.

(** X21. The two height functions switch at the same conversation lengths
    and never go back during a run: once the chat area is rendered it
    stays rendered, with a height that is never ["0px"], and once the
    container is at ["300px"] it stays there. *)
Theorem heights_never_shrink (w : world) (inputs : list input) :
  let st := ui w in
  let st' := ui (run null_read_message w inputs) in
  (chat_visible st = true -> chat_visible st' = true)
  /\ (getContainerHeight st = str "300px" -> getContainerHeight st' = str "300px")
  /\ (chat_visible st' = true -> getChatAreaHeight st' <> str "0px")
  /\ (getContainerHeight st' = str "auto" <-> chat_visible st' = false)
  /\ (getContainerHeight st' = str "150px" <-> getChatAreaHeight st' = str "80px").
Proof.
  cbv zeta.
  destruct (run_grows null_read_message inputs w) as (t & _ & Hc & _).
  assert (Hlen : length (conversation (ui w))
                 <= length (conversation (ui (run null_read_message w inputs)))).
  { rewrite Hc, length_app. lia. }
  destruct (container_height_cases (ui w)) as [(L & C & A & V)|[(L & C & A & V)|(L & C & A & V)]];
  destruct (container_height_cases (ui (run null_read_message w inputs)))
    as [(L' & C' & A' & V')|[(L' & C' & A' & V')|(L' & C' & A' & V')]];
    rewrite ?C, ?A, ?V, ?C', ?A', ?V';
    try lia; split_and!; try done.
Qed.

Lemma suggestion_after_mod prompts ticks :
  prompts <> [] ->
  suggestion_after prompts ticks = Some (ticks mod length prompts).
Proof.
  intros Hne.
  assert (Hn : length prompts <> 0) by (by destruct prompts).
  unfold suggestion_after. induction ticks as [|k IH].
  - simpl. by rewrite Nat.Div0.mod_0_l.
  - rewrite Nat.iter_succ, IH. simpl.
    destruct (Nat.eqb_spec (length prompts) 0) as [|_]; [done|].
    f_equal. rewrite Nat.Div0.add_mod_idemp_l. f_equal. lia.
Qed.

(** X22. With at least one prompt configured the suggestion shown is
    always one of the prompts: after [ticks] firings of the interval it is
    the prompt at position [ticks mod length], so the prompts are shown in
    order, each in turn, and the display repeats every [length] firings. *)
Theorem suggestions_rotate (prompts : list jsstring) (ticks : nat) :
  prompts <> [] ->
  suggestion_after prompts ticks = Some (ticks mod length prompts)
  /\ (exists p, currentSuggestion prompts (suggestion_after prompts ticks) = Some p
                /\ p ∈ prompts)
  /\ suggestion_after prompts (ticks + length prompts) = suggestion_after prompts ticks.
Proof.
  intros Hne.
  assert (Hn : length prompts <> 0) by (by destruct prompts).
  rewrite !suggestion_after_mod by done. split_and!; [done| |].
  - simpl. destruct (lookup_lt_is_Some_2 prompts (ticks mod length prompts)) as [p Hp].
    + by apply Nat.mod_upper_bound.
    + exists p. split; [done|]. by eapply list_elem_of_lookup_2.
  - f_equal. rewrite <- (Nat.mul_1_l (length prompts)) at 1.
    by rewrite Nat.Div0.mod_add.
Qed.

(** X23. With no prompt configured there is never a suggestion: the
    lookup is [undefined] before the first firing of the interval, and the
    index is NaN from the first firing on. *)
Theorem no_prompts_no_suggestion (ticks : nat) :
  currentSuggestion [] (suggestion_after [] ticks) = None
  /\ suggestion_after [] (S ticks) = None.
Proof.
  assert (H : suggestion_after [] (S ticks) = None).
  { unfold suggestion_after. induction ticks as [|k IH]; [done|].
    rewrite Nat.iter_succ, IH. done. }
  split; [|exact H].
  destruct ticks as [|k]; [done|].
  unfold suggestion_after in *. rewrite Nat.iter_succ in *.
  destruct (Nat.iter k (next_suggestion []) (Some 0)); done.
Qed.

End ViewExtras.

(** ** The variant that reads the body of a failed response *)

Section WithBodyExtras.
Import Controller.

Variable null_read_message : jsstring.

(** X25. In the variant, a response that is not 2xx leaves in [error] the
    text ["Server error: "], the status, [" - "] and the body of the
    response; if the body cannot be read, [error] is the message of that
    failure and the status is not reported.  Either way only the user
    Message is appended and [isLoading] ends false. *)
Theorem variant_reports_body
    (userInput : jsstring) (res : WithBody.response) (st : state) :
  blank userInput = false ->
  ok (WithBody.head res) = false ->
  let r := WithBody.submitMessage null_read_message userInput (Normal res) st in
  conversation r.1 = conversation st ++ [user_message userInput]
  /\ isLoading r.1 = false
  /\ List.filter (is_append agent) r.2 = []
  /\ (forall body, WithBody.text res = Normal body ->
        error r.1
        = Some (str "Server error: " ++ number_to_string (status (WithBody.head res))
                  ++ str " - " ++ body))
  /\ (forall m, WithBody.text res = Throw m -> error r.1 = Some m).
Proof.
  intros Hb Hok. cbv zeta. unfold WithBody.submitMessage.
  rewrite enter_valid by done. rewrite Hok. simpl.
  unfold WithBody.not_ok_message.
  split_and!; try done.
  - intros body ->. done.
  - intros m ->. done.
Qed.

End WithBodyExtras.

(** ** Instances *)

Section ExtraInstances.
Import Identity Controller View Trace Sample Fixture.

(** Another script's key in the tab's storage survives both reads. *)
Lemma reads_touch_one_key_witness :
  str "theme" <> str "sessionId"
  /\ sessionStorage (getSessionId uuidA foreign).2 !! str "theme"
     = sessionStorage foreign !! str "theme"
  /\ sessionStorage (getUserId uuidA foreign).2 = sessionStorage foreign.
Proof.
  assert (Hne : str "theme" <> str "sessionId")
    by (intros H; vm_compute in H; discriminate H).
  destruct (reads_touch_one_key uuidA (str "theme") foreign) as [[_ H1] [H2 _]].
  exact (conj Hne (conj (H1 Hne) H2)).
Defined.

Lemma read_leaves_identifier_stored_witness :
  has_window foreign = true
  /\ sessionStorage (getSessionId uuidA foreign).2 !! str "sessionId"
     = Some (getSessionId uuidA foreign).1.
Proof.
  assert (Hw : has_window foreign = true) by reflexivity.
  exact (conj Hw (proj1 (proj1 (read_leaves_identifier_stored uuidA foreign Hw)))).
Defined.

(** An identifier that is not hexadecimal is kept. *)
Lemma stored_identifier_reused_witness :
  sessionStorage foreign !! str "sessionId" = Some (str "tab-7")
  /\ (getSessionId uuidA foreign).1 = str "tab-7".
Proof.
  assert (Hw : has_window foreign = true) by reflexivity.
  assert (Hne : str "tab-7" <> []) by discriminate.
  assert (Hlen : length (str "tab-7") <= 32) by (vm_compute; lia).
  assert (Hs : sessionStorage foreign !! str "sessionId" = Some (str "tab-7"))
    by (vm_compute; reflexivity).
  destruct (stored_identifier_reused uuidA (str "tab-7") foreign Hw Hne Hlen) as [H1 _].
  exact (conj Hs (proj1 (H1 Hs))).
Defined.

(** Nothing stored, an identifier of 36 characters stored, the empty
    string stored. *)
Lemma generated_identifier_shape_witness :
  (getSessionId uuidA browser).1 = str "123e4567e89b42d3a456426614174000"
  /\ (getSessionId uuidB stale).1 = str "9b2c1d3e4f5a4b6c8d7e0f1a2b3c4d5e"
  /\ forallb is_hex (getUserId uuidB emptied).1 = true
  /\ sessionStorage foreign !! str "sessionId" = Some (getSessionId uuidA foreign).1.
Proof.
  pose proof (proj1 (generated_identifier_shape uuidA browser eq_refl)) as H1.
  pose proof (proj1 (generated_identifier_shape uuidB stale eq_refl)) as H2.
  pose proof (proj2 (generated_identifier_shape uuidB emptied eq_refl)) as H3.
  pose proof (proj1 (generated_identifier_shape uuidA foreign eq_refl)) as H4.
  cbv zeta in H1, H2, H3.
  exact (conj (proj1 H1)
           (conj (proj1 H2)
              (conj (proj2 (proj1 (proj2 (proj2 H3)) eq_refl)) (proj1 H4)))).
Defined.

Lemma mount_identifiers_witness :
  has_window browser = true
  /\ sessionStorage (mount uuidA uuidB browser).2 !! str "sessionId"
     = Some (sessionId (mount uuidA uuidB browser).1)
  /\ userId (mount uuidA uuidB browser).1 <> [].
Proof.
  assert (Hw : has_window browser = true) by reflexivity.
  destruct (mount_identifiers uuidA uuidB browser Hw eq_refl eq_refl)
    as (H1 & _ & _ & _ & H2 & _).
  exact (conj Hw (conj H1 H2)).
Defined.

Lemma reload_keeps_identifiers_witness :
  sessionId (mount uuidB uuidA (mount uuidA uuidB browser).2).1
  = sessionId (mount uuidA uuidB browser).1
  /\ userId (mount uuidB uuidA (mount uuidA uuidB browser).2).1
     = userId (mount uuidA uuidB browser).1.
Proof.
  destruct (reload_keeps_identifiers uuidA uuidB uuidB uuidA browser
              eq_refl eq_refl eq_refl) as (H1 & H2 & _).
  exact (conj H1 H2).
Defined.


Lemma user_message_is_trimmed_input_witness :
  blank (str "  hello there ") = false
  /\ exists t pre suf,
       (submitMessage_enter (str "  hello there ") mounted).1.2
       = [Append {| role := user; content := VString t |};
          Fetch (build_request {| role := user; content := VString t |} mounted)]
       /\ str "  hello there " = pre ++ t ++ suf
       /\ blank pre = true /\ blank suf = true
       /\ t <> []
       /\ (forall c, head t = Some c -> is_white_space c = false)
       /\ (forall c, last t = Some c -> is_white_space c = false)
       /\ trim t = t.
Proof.
  assert (Hb : blank (str "  hello there ") = false) by reflexivity.
  exact (conj Hb (user_message_is_trimmed_input (str "  hello there ") mounted Hb)).
Defined.

Lemma agent_message_truthy_witness :
  truthy (VString (str "hi there")) = true.
Proof.
  apply (agent_message_truthy v8_null_read (str "hello")
           (Normal (reply_with (VString (str "hi there")))) mounted
           {| role := agent; content := VString (str "hi there") |}).
  - vm_compute. right. right. left. reflexivity.
  - reflexivity.
Defined.


(** The same run: the draft keeps the submit button enabled. *)
Lemma buttons_after_submission_witness :
  let w := Page.with_ui (onChange (str "draft"))
             (run v8_null_read (start mounted) [Submit (str "hello")]) in
  let w' := step v8_null_read w (FetchSettles 0 (Normal server_error)) in
  is_Some (suspended w !! 0)
  /\ suspended w' !! 0 = None
  /\ prompt_disabled (ui w') = false
  /\ submit_disabled (ui w') = false
  /\ submit_disabled (onChange (str "  ") (ui w')) = true.
Proof.
  cbv zeta.
  match goal with |- is_Some (suspended ?w !! 0) /\ _ =>
    assert (Hin : is_Some (suspended w !! 0)) by (vm_compute; eauto);
    assert (Hgone : suspended (step v8_null_read w (FetchSettles 0 (Normal server_error)))
                      !! 0 = None) by (vm_compute; reflexivity);
    pose proof (buttons_after_submission v8_null_read w
                  (FetchSettles 0 (Normal server_error)) 0 (str "  ") Hin Hgone) as H
  end.
  cbv zeta in H. destruct H as (H1 & _ & H3).
  split_and!; [exact Hin|exact Hgone|exact H1|reflexivity|exact H3].
Defined.

(** Two of the configured prompts clicked one after the other. *)
Lemma deferred_prompt_clicks_overlap_witness :
  let p4 := Page.timer_fires (Page.timer_fires
              (Page.click_prompt (str "I am anxious about the future.")
                 (Page.click_prompt (str "I spend too much time with computers.")
                    (Page.loaded mounted)))) in
  isLoading mounted = false
  /\ suspended (Page.component p4) !! 0 = Some AwaitFetch
  /\ suspended (Page.component p4) !! 1 = Some AwaitFetch
  /\ serial (trace (Page.component p4)) = false.
Proof.
  cbv zeta.
  assert (Hl : isLoading mounted = false) by reflexivity.
  destruct (deferred_prompt_clicks_overlap mounted
              (str "I spend too much time with computers.")
              (str "I am anxious about the future.") Hl eq_refl eq_refl)
    as (_ & _ & _ & _ & H5 & H6 & _ & H8).
  exact (conj Hl (conj H5 (conj H6 H8))).
Defined.

(** Status 200 with a body that is not JSON, and with the body [null]. *)
Lemma unusable_body_is_a_failure_witness :
  error (submitMessage v8_null_read (str "hello")
           (Normal {| status := 200%N; json := Throw (str "Unexpected token <") |})
           mounted).1
  = Some (str "Unexpected token <")
  /\ error (submitMessage v8_null_read (str "hello")
              (Normal {| status := 200%N; json := Normal VNull |}) mounted).1
     = Some v8_null_read.
Proof.
  split.
  - refine (proj1 (proj1 (unusable_body_is_a_failure v8_null_read (str "hello")
                             {| status := 200%N; json := Throw (str "Unexpected token <") |}
                             mounted _ _) _ _)); reflexivity.
  - refine (proj1 (proj2 (unusable_body_is_a_failure v8_null_read (str "hello")
                             {| status := 200%N; json := Normal VNull |}
                             mounted _ _) _)); reflexivity.
Defined.

Lemma error_text_determines_status_witness :
  status server_error = status {| status := 500%N; json := Normal VNull |}.
Proof.
  apply (error_text_determines_status v8_null_read (str "a") (str "b")
           server_error {| status := 500%N; json := Normal VNull |} mounted initial);
    reflexivity.
Defined.

Lemma answers_have_questions_witness :
  let w := run v8_null_read (start mounted)
             [Submit (str "first"); Submit (str "second");
              FetchSettles 1 (Normal (reply_with (VString (str "late"))));
              JsonSettles 1] in
  conversation mounted = []
  /\ count_role agent (conversation (ui w)) + size (suspended w)
     <= count_role user (conversation (ui w)).
Proof.
  cbv zeta.
  assert (Hc : conversation mounted = []) by reflexivity.
  exact (conj Hc (answers_have_questions v8_null_read mounted _ Hc)).
Defined.

Lemma loading_iff_in_flight_witness :
  let inputs :=
    [Submit (str "first");
     FetchSettles 0 (Normal (reply_with (VString (str "hi there"))))] in
  let w := run v8_null_read (start mounted) inputs in
  guarded v8_null_read (start mounted) inputs = true
  /\ (isLoading (ui w) = true <-> size (suspended w) = 1).
Proof.
  cbv zeta.
  match goal with |- ?G = true /\ _ => assert (Hg : G = true) by (vm_compute; reflexivity) end.
  exact (conj Hg (proj2 (loading_iff_in_flight v8_null_read mounted _ eq_refl Hg))).
Defined.

Lemma error_line_witness :
  blank (str "hello") = false
  /\ error_shown (submitMessage_enter (str "hello")
                    (setError (Some (str "Server error: 500")) mounted)).1.1 = false
  /\ error_shown (submitMessage v8_null_read (str "hello") (Throw [])
                    (setError (Some (str "Server error: 500")) mounted)).1 = false.
Proof.
  assert (Hb : blank (str "hello") = false) by reflexivity.
  destruct (error_line v8_null_read (str "hello")
              (setError (Some (str "Server error: 500")) mounted) Hb) as (H1 & _ & H3).
  exact (conj Hb (conj H1 (H3 []))).
Defined.

Lemma submit_button_agrees_with_guard_witness :
  submit_disabled (typed (str "hello ")) = false
  /\ conversation (ui (handleSubmit (start (typed (str "hello ")))))
     = [user_message (str "hello ")]
  /\ submit_disabled (typed (str "  ")) = true
  /\ handleSubmit (start (typed (str "  "))) = start (typed (str "  ")).
Proof.
  assert (H1 : submit_disabled (ui (start (typed (str "hello ")))) = false) by reflexivity.
  assert (H2 : submit_disabled (ui (start (typed (str "  ")))) = true) by reflexivity.
  pose proof (proj1 (proj1 (submit_button_agrees_with_guard (start (typed (str "hello "))))
                      H1)) as H3.
  pose proof (proj2 (submit_button_agrees_with_guard (start (typed (str "  "))))
                eq_refl H2) as H4.
  exact (conj H1 (conj H3 (conj H2 H4))).
Defined.

Lemma heights_never_shrink_witness :
  let w := run v8_null_read (start mounted) [Submit (str "first")] in
  chat_visible (ui w) = true
  /\ chat_visible (ui (run v8_null_read w [FetchSettles 0 (Normal server_error)])) = true
  /\ getChatAreaHeight (ui w) <> str "0px".
Proof.
  cbv zeta.
  match goal with |- ?V = true /\ _ => assert (Hv : V = true) by reflexivity end.
  pose proof (heights_never_shrink v8_null_read
                (run v8_null_read (start mounted) [Submit (str "first")])
                [FetchSettles 0 (Normal server_error)]) as H.
  cbv zeta in H. destruct H as (H1 & _).
  pose proof (heights_never_shrink v8_null_read (start mounted) [Submit (str "first")]) as H'.
  cbv zeta in H'. destruct H' as (_ & _ & H3 & _).
  exact (conj Hv (conj (H1 Hv) (H3 Hv))).
Defined.

(** The three prompts of [config.js], after four firings. *)
Lemma suggestions_rotate_witness :
  suggestedPrompts <> []
  /\ suggestion_after suggestedPrompts 4 = Some 1
  /\ suggestion_after suggestedPrompts 7 = suggestion_after suggestedPrompts 4.
Proof.
  assert (Hne : suggestedPrompts <> []) by discriminate.
  destruct (suggestions_rotate suggestedPrompts 4 Hne) as (H1 & _ & H3).
  exact (conj Hne (conj H1 H3)).
Defined.

(** Status 404 with the body [Not Found]. *)
Lemma variant_reports_body_witness :
  blank (str "hello") = false
  /\ ok (WithBody.head not_found) = false
  /\ error (WithBody.submitMessage v8_null_read (str "hello") (Normal not_found) mounted).1
     = Some (str "Server error: 404 - Not Found").
Proof.
  assert (Hb : blank (str "hello") = false) by reflexivity.
  assert (Hok : ok (WithBody.head not_found) = false) by reflexivity.
  destruct (variant_reports_body v8_null_read (str "hello") not_found mounted Hb Hok)
    as (_ & _ & _ & H & _).
  exact (conj Hb (conj Hok (H (str "Not Found") eq_refl))).
Defined.

End ExtraInstances.
